(** * Scope-based authentication and authorization of ProxmoxMCP

    A shallow embedding of [src/proxmox_mcp/auth] ([utils.py], [models.py],
    [providers.py], [middleware.py]), of the token model of
    [examples/django_models.py] and of the middleware registration of
    [src/proxmox_mcp/server_http.py], followed by the properties of the
    token loader, the scope resolver, the RBAC middleware and the audit
    middleware.

    Conventions.
    - A Python [str] is a [string]: a sequence of characters, each the code
      point given by [N_of_ascii] (0..255, the range an HTTP header value
      decodes to).  Texts built by f-strings are kept as structured records
      of their interpolated values.
    - A Python [set] of strings is a [gset string]; a [dict] keyed by
      strings is a [gmap string _].
    - A [datetime] is an instant counted in microseconds ([Z]), naive as
      the values of [datetime.now()] are; a POSIX timestamp (a Python
      [float] of seconds) is kept in the same unit.
    - Logging and exceptions are explicit: a computation yields the list of
      log records it emitted and either a value or the exception raised. *)

From Stdlib Require Import ZArith Lia String Ascii List.
From stdpp Require Import base decidable option list gmap sets strings.
Import ListNotations.

#[local] Open Scope string_scope.
#[local] Open Scope Z_scope.
#[local] Open Scope list_scope.

(* ===================================================================== *)
(** * [hashlib.sha512]: SHA-512 (FIPS 180-4) on 64-bit words              *)
(* ===================================================================== *)

Module Sha512.

(** A 64-bit word is a [Z] in [0, 2^64); additions wrap around. *)
Definition wrap (x : Z) : Z := x mod 2 ^ 64.
Definition add64 (x y : Z) : Z := wrap (x + y).
Definition not64 (x : Z) : Z := Z.lxor x (2 ^ 64 - 1).
Definition shr (n x : Z) : Z := Z.shiftr x n.
Definition rotr (n x : Z) : Z :=
  Z.lor (Z.shiftr x n) (wrap (Z.shiftl x (64 - n))).

Definition Ch (x y z : Z) : Z := Z.lxor (Z.land x y) (Z.land (not64 x) z).
Definition Maj (x y z : Z) : Z :=
  Z.lxor (Z.lxor (Z.land x y) (Z.land x z)) (Z.land y z).
Definition Sigma0 (x : Z) : Z := Z.lxor (Z.lxor (rotr 28 x) (rotr 34 x)) (rotr 39 x).
Definition Sigma1 (x : Z) : Z := Z.lxor (Z.lxor (rotr 14 x) (rotr 18 x)) (rotr 41 x).
Definition sigma0 (x : Z) : Z := Z.lxor (Z.lxor (rotr 1 x) (rotr 8 x)) (shr 7 x).
Definition sigma1 (x : Z) : Z := Z.lxor (Z.lxor (rotr 19 x) (rotr 61 x)) (shr 6 x).

(** Round constants: the first 64 bits of the fractional parts of the cube
    roots of the first eighty primes. *)
Definition K : list Z :=
  [
    0x428a2f98d728ae22; 0x7137449123ef65cd; 0xb5c0fbcfec4d3b2f; 0xe9b5dba58189dbbc;
    0x3956c25bf348b538; 0x59f111f1b605d019; 0x923f82a4af194f9b; 0xab1c5ed5da6d8118;
    0xd807aa98a3030242; 0x12835b0145706fbe; 0x243185be4ee4b28c; 0x550c7dc3d5ffb4e2;
    0x72be5d74f27b896f; 0x80deb1fe3b1696b1; 0x9bdc06a725c71235; 0xc19bf174cf692694;
    0xe49b69c19ef14ad2; 0xefbe4786384f25e3; 0x0fc19dc68b8cd5b5; 0x240ca1cc77ac9c65;
    0x2de92c6f592b0275; 0x4a7484aa6ea6e483; 0x5cb0a9dcbd41fbd4; 0x76f988da831153b5;
    0x983e5152ee66dfab; 0xa831c66d2db43210; 0xb00327c898fb213f; 0xbf597fc7beef0ee4;
    0xc6e00bf33da88fc2; 0xd5a79147930aa725; 0x06ca6351e003826f; 0x142929670a0e6e70;
    0x27b70a8546d22ffc; 0x2e1b21385c26c926; 0x4d2c6dfc5ac42aed; 0x53380d139d95b3df;
    0x650a73548baf63de; 0x766a0abb3c77b2a8; 0x81c2c92e47edaee6; 0x92722c851482353b;
    0xa2bfe8a14cf10364; 0xa81a664bbc423001; 0xc24b8b70d0f89791; 0xc76c51a30654be30;
    0xd192e819d6ef5218; 0xd69906245565a910; 0xf40e35855771202a; 0x106aa07032bbd1b8;
    0x19a4c116b8d2d0c8; 0x1e376c085141ab53; 0x2748774cdf8eeb99; 0x34b0bcb5e19b48a8;
    0x391c0cb3c5c95a63; 0x4ed8aa4ae3418acb; 0x5b9cca4f7763e373; 0x682e6ff3d6b2b8a3;
    0x748f82ee5defb2fc; 0x78a5636f43172f60; 0x84c87814a1f0ab72; 0x8cc702081a6439ec;
    0x90befffa23631e28; 0xa4506cebde82bde9; 0xbef9a3f7b2c67915; 0xc67178f2e372532b;
    0xca273eceea26619c; 0xd186b8c721c0c207; 0xeada7dd6cde0eb1e; 0xf57d4f7fee6ed178;
    0x06f067aa72176fba; 0x0a637dc5a2c898a6; 0x113f9804bef90dae; 0x1b710b35131c471b;
    0x28db77f523047d84; 0x32caab7b40c72493; 0x3c9ebe0a15c9bebc; 0x431d67c49c100d4c;
    0x4cc5d4becb3e42b6; 0x597f299cfc657e2a; 0x5fcb6fab3ad6faec; 0x6c44198c4a475817
  ].

(** The working state: the eight words a..h. *)
Record state : Type := State
  { sa : Z; sb : Z; sc : Z; sd : Z; se : Z; sf : Z; sg : Z; sh : Z }.

(** Initial hash value: fractional parts of the square roots of the first
    eight primes. *)
Definition H0 : state :=
  State 0x6a09e667f3bcc908 0xbb67ae8584caa73b 0x3c6ef372fe94f82b 0xa54ff53a5f1d36f1
        0x510e527fade682d1 0x9b05688c2b3e6c1f 0x1f83d9abfb41bd6b 0x5be0cd19137e2179.

(** Padding: the byte 0x80, zero bytes up to 112 modulo 128, then the bit
    length of the message as a 128-bit big-endian integer. *)
Definition be_bytes (n : nat) (x : Z) : list Z :=
  map (fun i => (x / 2 ^ (8 * Z.of_nat i)) mod 256) (rev (seq 0 n)).

Definition zero_count (len : Z) : Z := (111 - len) mod 128.

Definition pad (msg : list Z) : list Z :=
  let len := Z.of_nat (length msg) in
  msg ++ [128] ++ repeat 0 (Z.to_nat (zero_count len)) ++ be_bytes 16 (8 * len).

Definition be_word (bs : list Z) : Z :=
  fold_left (fun acc b => acc * 256 + b) bs 0.

Fixpoint chunks (size count : nat) (bs : list Z) : list (list Z) :=
  match count with
  | O => []
  | S count' => firstn size bs :: chunks size count' (skipn size bs)
  end.

Definition block_words (block : list Z) : list Z :=
  map be_word (chunks 8 16 block).

(** Message schedule; [recent] holds the words computed so far, the most
    recent first, so that W(t-2), W(t-7), W(t-15), W(t-16) sit at
    positions 1, 6, 14 and 15. *)
Fixpoint extend (n : nat) (recent : list Z) : list Z :=
  match n with
  | O => recent
  | S n' =>
      let w := add64 (add64 (add64 (sigma1 (nth 1 recent 0)) (nth 6 recent 0))
                            (sigma0 (nth 14 recent 0)))
                     (nth 15 recent 0) in
      extend n' (w :: recent)
  end.

Definition schedule (block : list Z) : list Z :=
  rev (extend 64 (rev (block_words block))).

Definition round (s : state) (kw : Z * Z) : state :=
  let T1 := add64 (add64 (add64 (add64 (sh s) (Sigma1 (se s)))
                                (Ch (se s) (sf s) (sg s)))
                         (fst kw))
                  (snd kw) in
  let T2 := add64 (Sigma0 (sa s)) (Maj (sa s) (sb s) (sc s)) in
  State (add64 T1 T2) (sa s) (sb s) (sc s) (add64 (sd s) T1) (se s) (sf s) (sg s).

Definition add_state (s t : state) : state :=
  State (add64 (sa s) (sa t)) (add64 (sb s) (sb t)) (add64 (sc s) (sc t))
        (add64 (sd s) (sd t)) (add64 (se s) (se t)) (add64 (sf s) (sf t))
        (add64 (sg s) (sg t)) (add64 (sh s) (sh t)).

Definition compress (h : state) (block : list Z) : state :=
  add_state h (fold_left round (combine K (schedule block)) h).

Definition state_words (s : state) : list Z :=
  [sa s; sb s; sc s; sd s; se s; sf s; sg s; sh s].

(** [hashlib.sha512(data).digest()]: the 64 bytes of the final state. *)
Definition digest (msg : list Z) : list Z :=
  let padded := pad msg in
  let h := fold_left compress (chunks 128 (length padded / 128) padded) H0 in
  flat_map (be_bytes 8) (state_words h).

(** [bytes.hex()] as [hexdigest] renders it: two lowercase digits a byte. *)
Definition hex_digit (n : Z) : ascii :=
  match n with
  | 0 => "0" | 1 => "1" | 2 => "2" | 3 => "3" | 4 => "4" | 5 => "5"
  | 6 => "6" | 7 => "7" | 8 => "8" | 9 => "9" | 10 => "a" | 11 => "b"
  | 12 => "c" | 13 => "d" | 14 => "e" | 15 => "f" | _ => "?"
  end%char.

Definition hex_byte (b : Z) : list ascii := [hex_digit (b / 16); hex_digit (b mod 16)].

Definition hexdigest (msg : list Z) : string :=
  string_of_list_ascii (flat_map hex_byte (digest msg)).

End Sha512.

(* ===================================================================== *)
(** * The [str] and [int] built-ins the code calls                        *)
(* ===================================================================== *)

Module Py.

(** The code point of a character. *)
Definition ord (c : ascii) : Z := Z.of_N (N_of_ascii c).

Definition between (lo hi n : Z) : bool := (lo <=? n) && (n <=? hi).

(** [c.isspace()]: the white space below 256 is TAB..CR, FS..US, the space,
    NEL (0x85) and the no-break space (0xa0). *)
Definition isspace (c : ascii) : bool :=
  let n := ord c in
  between 9 13 n || between 28 32 n || (n =? 133) || (n =? 160).

(** [c.lower()]: A..Z and the accented capitals 0xc0..0xde (but the
    multiplication sign 0xd7) move up by 32. *)
Definition lower_char (c : ascii) : ascii :=
  let n := ord c in
  if between 65 90 n || (between 192 222 n && negb (n =? 215))
  then ascii_of_N (N_of_ascii c + 32)
  else c.

(** [c.isalnum()]: the ASCII digits and letters, the feminine and masculine
    ordinal indicators, the micro sign, the superscripts 1, 2 and 3, the
    vulgar fractions, and the accented letters. *)
Definition isalnum_char (c : ascii) : bool :=
  let n := ord c in
  between 48 57 n || between 65 90 n || between 97 122 n
  || (n =? 170) || (n =? 178) || (n =? 179) || (n =? 181) || (n =? 185)
  || (n =? 186) || between 188 190 n
  || between 192 214 n || between 216 246 n || between 248 255 n.

Fixpoint map_chars (f : ascii -> ascii) (s : string) : string :=
  match s with
  | EmptyString => EmptyString
  | String c rest => String (f c) (map_chars f rest)
  end.

(** [s.lower()]. *)
Definition lower (s : string) : string := map_chars lower_char s.

(** [s.isalnum()]: every character is alphanumeric and there is at least
    one. *)
Definition isalnum (s : string) : bool :=
  match list_ascii_of_string s with
  | [] => false
  | cs => forallb isalnum_char cs
  end.

(** [s.replace(old, '')] for a one-character [old]. *)
Fixpoint remove_char (old : ascii) (s : string) : string :=
  match s with
  | EmptyString => EmptyString
  | String c rest =>
      if Ascii.eqb c old then remove_char old rest
      else String c (remove_char old rest)
  end.

(** [s.split()]: the maximal runs of characters that are not white space,
    in order.  [word] holds the run being read, last character first. *)
Definition close_word (word : list ascii) (parts : list string) : list string :=
  match word with
  | [] => parts
  | _ :: _ => string_of_list_ascii (rev word) :: parts
  end.

Fixpoint split_chars (s : list ascii) (word : list ascii) : list string :=
  match s with
  | [] => close_word word []
  | c :: rest =>
      if isspace c then close_word word (split_chars rest [])
      else split_chars rest (c :: word)
  end.

Definition split (s : string) : list string :=
  split_chars (list_ascii_of_string s) [].

(** The white space [int] strips: TAB..CR and the space, and the two
    characters above 127 that it first turns into a space. *)
Definition int_space (c : ascii) : bool :=
  let n := ord c in
  between 9 13 n || (n =? 32) || (n =? 133) || (n =? 160).

(** The value of a digit: 0..9, then the letters of either case from 10. *)
Definition digit_value (c : ascii) : option Z :=
  let n := ord c in
  if between 48 57 n then Some (n - 48)
  else if between 97 122 n then Some (n - 87)
  else if between 65 90 n then Some (n - 55)
  else None.

Definition is_digit (base : Z) (c : ascii) : bool :=
  match digit_value c with
  | Some d => d <? base
  | None => false
  end.

(** The digits of a literal, single underscores allowed between them:
    [acc] is the value read so far, [seen] says that a digit was read and
    [underscore] that the last character was an underscore.  Returns the
    value and what follows the literal. *)
Fixpoint digits (base : Z) (s : list ascii) (acc : Z) (seen underscore : bool)
    : option (Z * list ascii) :=
  match s with
  | [] => if seen && negb underscore then Some (acc, []) else None
  | c :: rest =>
      if Ascii.eqb c "_" then
        if seen && negb underscore then digits base rest acc seen true
        else None
      else
        match digit_value c with
        | Some d =>
            if d <? base then digits base rest (acc * base + d) true false
            else if seen && negb underscore then Some (acc, c :: rest)
            else None
        | None =>
            if seen && negb underscore then Some (acc, c :: rest) else None
        end
  end.

Fixpoint lstrip (s : list ascii) : list ascii :=
  match s with
  | c :: rest => if int_space c then lstrip rest else s
  | [] => []
  end.

(** The prefix a base admits after the sign ([0x], [0o], [0b], in either
    case), with the one underscore allowed behind it. *)
Definition is_prefix_letter (base : Z) (p : ascii) : bool :=
  let n := ord (lower_char p) in
  ((base =? 16) && (n =? 120)) || ((base =? 8) && (n =? 111))
  || ((base =? 2) && (n =? 98)).

Definition skip_prefix (base : Z) (s : list ascii) : list ascii :=
  match s with
  | z :: p :: rest =>
      if Ascii.eqb z "0" && is_prefix_letter base p
      then match rest with
           | u :: rest' => if Ascii.eqb u "_" then rest' else rest
           | [] => rest
           end
      else s
  | _ => s
  end.

(** The optional sign. *)
Definition sign (s : list ascii) : Z * list ascii :=
  match s with
  | c :: rest =>
      if Ascii.eqb c "+" then (1, rest)
      else if Ascii.eqb c "-" then (-1, rest)
      else (1, s)
  | [] => (1, s)
  end.

(** [int(s, base)] for an explicit base: [None] stands for [ValueError]. *)
Definition int (s : string) (base : Z) : option Z :=
  let '(sg, s) := sign (lstrip (list_ascii_of_string s)) in
  match digits base (skip_prefix base s) 0 false false with
  | Some (n, rest) =>
      match lstrip rest with
      | [] => Some (sg * n)
      | _ :: _ => None
      end
  | None => None
  end.

End Py.

(* ===================================================================== *)
(** * [auth/utils.py]                                                     *)
(* ===================================================================== *)

(** [str.encode('utf-8')] on code points below 256: one byte below 0x80,
    two bytes (110xxxxx 10xxxxxx) from 0x80 on. *)
Definition encode_char (c : ascii) : list Z :=
  let cp := Z.of_N (N_of_ascii c) in
  if cp <? 128 then [cp]
  else [Z.lor 192 (Z.shiftr cp 6); Z.lor 128 (Z.land cp 63)].

Definition encode_utf8 (s : string) : list Z :=
  flat_map encode_char (list_ascii_of_string s).

(** [hash_sha512(value)]:
    [hashlib.sha512(value.encode('utf-8')).hexdigest()]. *)
Definition hash_sha512 (value : string) : string :=
  Sha512.hexdigest (encode_utf8 value).

(* ===================================================================== *)
(** * Exceptions, log records and the effect monad                        *)
(* ===================================================================== *)

(** The exceptions the modelled code raises or catches.  A [ToolError]
    carries its message, kept as the values the f-string interpolates:
    - [AuthenticationRequired]: "Kimlik dogrulama gerekli. Gecerli bir
      token saglayin."
    - [InsufficientScopes missing held]: "Bu islem icin gerekli yetkilere
      (missing) sahip degilsiniz. Mevcut yetkileriniz: held"
    - [AuthorizationError e]: "Yetkilendirme hatasi: str(e)". *)
Inductive exn : Type :=
  | ToolError (text : tool_error_text)
  | ObjectDoesNotExist
  | MultipleObjectsReturned
  | Exception (text : string)
with tool_error_text : Type :=
  | AuthenticationRequired
  | InsufficientScopes (missing held : gset string)
  | AuthorizationError (cause : exn)
  | ToolFailure (text : string).

Inductive level : Type := DEBUG | INFO | WARNING | ERROR.

(** One constructor per logging call of [providers.py] and
    [middleware.py]. *)
Inductive message : Type :=
  | DjangoNotAvailable
      (* "Django is not available for authentication" *)
  | ExpiredTokenUsed (username : string)
      (* f"Expired token used by user {app_token.user.username}" *)
  | InvalidTokenAttempted
      (* "Invalid token attempted" *)
  | ErrorLoadingAccessToken (e : exn)
      (* f"Error loading access token: {e}" *)
  | NoValidTokenForListing
      (* "No valid token found for tool listing" *)
  | ToolFilteredOut (tool : string) (username : option string)
                    (required has : gset string)
      (* f"Tool '{tool.name}' filtered out for user {token.username}
           (required: {required_scopes}, has: {token.scopes})" *)
  | UserHasAccess (username : option string) (allowed total : nat)
      (* f"User {token.username} has access to
           {len(allowed_tools)}/{len(tools)} tools" *)
  | ErrorInToolFiltering (e : exn)
      (* f"Error in tool filtering: {e}" *)
  | UserAuthorized (username : option string) (tool : string)
      (* f"User {token.username} authorized to use tool '{tool_name}'" *)
  | ErrorInToolAuthorization (e : exn)
      (* f"Error in tool authorization: {e}" *)
  | AuditCalled (user_info tool : string)
      (* f"AUDIT: {user_info} called tool '{tool_name}'" *)
  | AuditCompleted (tool user_info : string)
      (* f"AUDIT: Tool '{tool_name}' completed for {user_info}" *)
  | AuditFailed (tool user_info : string) (e : exn)
      (* f"AUDIT: Tool '{tool_name}' failed for {user_info}: {e}" *)
  | Other (text : string).
      (* a record written by the operation handler itself *)

Record log_record : Type := LogRecord { lr_level : level; lr_message : message }.

Inductive outcome (A : Type) : Type :=
  | Return (a : A)
  | Raise (e : exn).
Arguments Return {A} a.
Arguments Raise {A} e.

(** A computation: the log records written, in order, and how it ended. *)
Definition M (A : Type) : Type := (list log_record * outcome A)%type.

#[export] Instance M_ret : MRet M := fun A a => ([], Return a).

#[export] Instance M_bind : MBind M := fun A B f m =>
  match m with
  | (l, Return a) => let '(l', r) := f a in (l ++ l', r)
  | (l, Raise e) => (l, Raise e)
  end.

Definition raise {A : Type} (e : exn) : M A := ([], Raise e).

Definition log (lv : level) (msg : message) : M unit :=
  ([LogRecord lv msg], Return tt).

(** [try: body except Exception as e: handler(e)]. *)
Definition try_except {A : Type} (body : M A) (handler : exn -> M A) : M A :=
  match body with
  | (l, Return a) => (l, Return a)
  | (l, Raise e) => let '(l', r) := handler e in (l ++ l', r)
  end.

Definition records {A : Type} (m : M A) : list log_record := fst m.
Definition result {A : Type} (m : M A) : outcome A := snd m.

(* ===================================================================== *)
(** * [auth/utils.py], continued                                          *)
(* ===================================================================== *)

(** [bytes.hex()]. *)
Definition hexlify (bs : list Z) : string :=
  string_of_list_ascii (flat_map Sha512.hex_byte bs).

(** [secrets.token_hex(nbytes)]: the hexadecimal rendering of
    [os.urandom(nbytes)], here [urandom nbytes]; a negative count raises
    [ValueError]. *)
Definition token_hex (urandom : Z -> list Z) (nbytes : Z) : outcome string :=
  if nbytes <? 0 then Raise (Exception "ValueError")
  else Return (hexlify (urandom nbytes)).

(** [generate_token(length=32)]. *)
Definition generate_token (urandom : Z -> list Z) (length : Z) : outcome string :=
  token_hex urandom length.

(** [validate_token_format(token)]. *)
Definition validate_token_format (token : string) : bool :=
  if String.eqb token "" then false
  else if (String.length token <? 16)%nat || (128 <? String.length token)%nat
  then false
  else
    match Py.int token 16 with
    | Some _ => true
    | None => Py.isalnum (Py.remove_char "_" (Py.remove_char "-" token))
    end.

(** [extract_bearer_token(authorization_header)]. *)
Definition extract_bearer_token (authorization_header : option string)
    : option string :=
  match authorization_header with
  | None => None
  | Some header =>
      if String.eqb header "" then None
      else
        match Py.split header with
        | [scheme; token] =>
            if String.eqb (Py.lower scheme) "bearer" then Some token else None
        | _ => None
        end
  end.

(* ===================================================================== *)
(** * [examples/django_models.py]: the stored token and its owner         *)
(* ===================================================================== *)

Module UserRole.
Record t : Type := Build
  { name : string;
    is_superuser : bool;
    can_write : bool;
    can_admin : bool;
    description : string }.
End UserRole.

(** [django.contrib.auth.models.User], extended with the nullable [role]
    foreign key. *)
Module User.
Record t : Type := Build
  { id : Z;
    username : string;
    is_superuser : bool;
    role : option UserRole.t }.
End User.

Module ApplicationToken.
Record t : Type := Build
  { user : User.t;
    name : string;
    token_hash : string;
    permission : string;
    expires : option Z;
    created_at : Z;
    last_used : option Z;
    is_active : bool;
    allowed_ips : string }.

Definition set_is_active (b : bool) (r : t) : t :=
  Build (user r) (name r) (token_hash r) (permission r) (expires r)
        (created_at r) (last_used r) b (allowed_ips r).

(** [hash_token(token)]. *)
Definition hash_token (token : string) : string :=
  Sha512.hexdigest (encode_utf8 token).

(** [is_expired(self)], with [timezone.now()] read as [now]. *)
Definition is_expired (self : t) (now : Z) : bool :=
  match expires self with
  | None => false
  | Some e => bool_decide (now > e)
  end.

(** [ApplicationToken.objects...get(token_hash=h)]: the one matching
    row; [DoesNotExist] without a match, [MultipleObjectsReturned] with
    several. *)
Definition get (objects : list t) (h : string) : M t :=
  match filter (fun r => token_hash r = h) objects with
  | [] => raise ObjectDoesNotExist
  | [r] => mret r
  | _ :: _ :: _ => raise MultipleObjectsReturned
  end.

(** [save(self)]: a token that is neither empty nor of the length of a
    digest is hashed before the row is written. *)
Definition save (self : t) : t :=
  if negb (String.eqb (token_hash self) "")
     && negb (String.length (token_hash self) =? 128)%nat
  then Build (user self) (name self) (hash_token (token_hash self))
             (permission self) (expires self) (created_at self)
             (last_used self) (is_active self) (allowed_ips self)
  else self.

(** [create_token(cls, user, name, permission='read', expires_days=None)]
    on the table [objects].  [now] is [timezone.now()] at line 99 and
    [created] the instant [auto_now_add] stamps; the column [token_hash] is
    unique, so inserting a digest the table already holds raises
    [IntegrityError].  Returns the row, the raw token and the table. *)
Definition create_token (urandom : Z -> list Z) (objects : list t)
    (now created : Z) (user : User.t) (name permission : string)
    (expires_days : option Z) : outcome (t * string * list t) :=
  match token_hex urandom 32 with
  | Raise e => Raise e
  | Return raw_token =>
      let token_hash := hash_token raw_token in
      let expires :=
        match expires_days with
        | Some days =>
            if days =? 0 then None else Some (now + days * 86400 * 1000000)
        | None => None
        end in
      let token :=
        save (Build user name token_hash permission expires created None
                    true "") in
      if existsb (fun r => String.eqb (ApplicationToken.token_hash r)
                                      (ApplicationToken.token_hash token))
                 objects
      then Raise (Exception "IntegrityError")
      else Return (token, raw_token, objects ++ [token])
  end.

(** [update_last_used(self)]: the instance after the call, with
    [timezone.now()] read as [now]. *)
Definition update_last_used (self : t) (now : Z) : t :=
  let self := Build (user self) (name self) (token_hash self)
                    (permission self) (expires self) (created_at self)
                    (Some now) (is_active self) (allowed_ips self) in
  save self.
End ApplicationToken.

(* ===================================================================== *)
(** * [auth/models.py]                                                    *)
(* ===================================================================== *)

(** Seconds on the microsecond axis. *)
Definition seconds (n : Z) : Z := n * 1000000.

(** [datetime.timestamp()]. *)
Definition timestamp (d : Z) : Z := d.

Module ProxmoxMCPToken.
Record t : Type := Build
  { client_id : string;
    user_id : option Z;
    username : option string;
    permission : option string;
    expires_at : Z;
    scopes : gset string;
    token_hash : option string;
    is_superuser : bool }.

(** [from_django_user(cls, user, permission="read", expires_days=1)],
    with [datetime.now()] read as [now]. *)
Definition from_django_user (user : User.t) (permission : string)
    (expires_days : Z) (now : Z) : t :=
  let scopes : gset string := {["user"]} in
  let scopes :=
    match User.role user with
    | Some role =>
        if UserRole.is_superuser role then scopes ∪ {["admin"]} ∪ {["write"]}
        else if UserRole.can_write role then scopes ∪ {["write"]}
        else scopes
    | None =>
        if User.is_superuser user then scopes ∪ {["admin"; "write"]}
        else scopes
    end in
  Build "proxmox-mcp" (Some (User.id user)) (Some (User.username user))
        (Some permission)
        (timestamp (now + seconds (expires_days * 86400)))
        scopes None (User.is_superuser user).

Definition has_scope (self : t) (scope : string) : bool :=
  bool_decide (scope ∈ scopes self).

(** [bool(self.scopes & scopes)]. *)
Definition has_any_scope (self : t) (required : gset string) : bool :=
  bool_decide (scopes self ∩ required ≠ ∅).

Definition has_all_scopes (self : t) (required : gset string) : bool :=
  bool_decide (required ⊆ scopes self).

(** [is_expired(self)], with [datetime.now()] read as [now]. *)
Definition is_expired (self : t) (now : Z) : bool :=
  bool_decide (timestamp now > expires_at self).
End ProxmoxMCPToken.

(* ===================================================================== *)
(** * [auth/providers.py]                                                 *)
(* ===================================================================== *)

Module YartuMCPAuthProvider.
Record t : Type := Build
  { default_scopes : gset string;
    admin_scope : string;
    user_scope : string;
    write_scope : string }.

(** Python truthiness of a set: non-empty. *)
Definition truthy (s : gset string) : bool := bool_decide (s ≠ ∅).

(** [__init__(self, default_scopes=None, admin_scope="admin",
    user_scope="user", write_scope="write")]. *)
Definition __init__ (default_scopes : option (gset string))
    (admin_scope user_scope write_scope : string) : t :=
  Build (match default_scopes with
         | Some s => if truthy s then s else {["user"]}
         | None => {["user"]}
         end)
        admin_scope user_scope write_scope.

(** [YartuMCPAuthProvider()]. *)
Definition default : t := __init__ None "admin" "user" "write".

(** The scope set built at lines 95-105 from the owner of the token. *)
Definition derive_scopes (self : t) (user : User.t) : gset string :=
  let scopes : gset string := {[user_scope self]} in
  match User.role user with
  | Some role =>
      if UserRole.is_superuser role
      then scopes ∪ {[admin_scope self]} ∪ {[write_scope self]}
      else if UserRole.can_write role then scopes ∪ {[write_scope self]}
      else scopes
  | None =>
      if User.is_superuser user
      then scopes ∪ {[admin_scope self; write_scope self]}
      else scopes
  end.

(** [load_access_token(self, token)].

    [DJANGO_AVAILABLE] is the module flag, [objects] the rows of
    [ApplicationToken], and [now] the value of [datetime.now()]: every run
    reads the clock at most once, at line 91 when [expires] is set and at
    line 113 when it is not. *)
Definition load_access_token (self : t) (DJANGO_AVAILABLE : bool)
    (objects : list ApplicationToken.t) (now : Z) (token : string)
    : M (option ProxmoxMCPToken.t) :=
  if negb DJANGO_AVAILABLE then
    log ERROR DjangoNotAvailable ;; mret None
  else
    try_except
      (let token_hash := hash_sha512 token in
       app_token ← ApplicationToken.get objects token_hash ;
       let user := ApplicationToken.user app_token in
       if match ApplicationToken.expires app_token with
          | Some e => bool_decide (e <= now)
          | None => false
          end
       then
         log WARNING (ExpiredTokenUsed (User.username user)) ;; mret None
       else
         let scopes := derive_scopes self user in
         mret (Some (ProxmoxMCPToken.Build
                       "proxmox-mcp"
                       (Some (User.id user))
                       (Some (User.username user))
                       (Some (ApplicationToken.permission app_token))
                       (match ApplicationToken.expires app_token with
                        | Some e => timestamp e
                        | None => timestamp now + seconds 86400
                        end)
                       scopes
                       (Some token_hash)
                       (User.is_superuser user))))
      (fun e =>
         match e with
         | ObjectDoesNotExist => log WARNING InvalidTokenAttempted ;; mret None
         | _ => log ERROR (ErrorLoadingAccessToken e) ;; mret None
         end).

(** [get_required_scopes(self, tool_name)]. *)
Definition get_required_scopes (self : t) (tool_name : string) : gset string :=
  let admin_tools : gset string :=
    {["delete_vm"; "create_vm"; "reset_vm"; "stop_vm"; "shutdown_vm"]} in
  let write_tools : gset string :=
    {["start_vm"; "execute_vm_command"; "create_snapshot"; "rollback_snapshot"]} in
  if bool_decide (tool_name ∈ admin_tools) then {[admin_scope self]}
  else if bool_decide (tool_name ∈ write_tools) then {[write_scope self]}
  else {[user_scope self]}.
End YartuMCPAuthProvider.

Module SimpleTokenAuthProvider.
(** A value of [valid_tokens]: [{"scopes": ..., "user": ...}]. *)
Record token_data : Type := TokenData
  { scopes : gset string;
    user : string }.

Record t : Type := Build
  { valid_tokens : gmap string token_data }.

Definition default_tokens : gmap string token_data :=
  list_to_map
    [ ("admin-token", TokenData {["admin"; "write"; "user"]} "admin");
      ("user-token", TokenData {["user"]} "user");
      ("write-token", TokenData {["write"; "user"]} "writer") ].

(** [__init__(self, valid_tokens=None)]; an empty dict is falsy. *)
Definition __init__ (valid_tokens : option (gmap string token_data)) : t :=
  Build (match valid_tokens with
         | Some m => if bool_decide (m ≠ ∅) then m else default_tokens
         | None => default_tokens
         end).

(** [load_access_token(self, token)], with [datetime.now()] read as
    [now]. *)
Definition load_access_token (self : t) (now : Z) (token : string)
    : option ProxmoxMCPToken.t :=
  match valid_tokens self !! token with
  | None => None
  | Some token_data =>
      Some (ProxmoxMCPToken.Build
              "proxmox-mcp-simple"
              None
              (Some (user token_data))
              (Some "read")
              (timestamp now + seconds 86400)
              (scopes token_data)
              None
              (bool_decide ("admin" ∈ scopes token_data)))
  end.
End SimpleTokenAuthProvider.

(* ===================================================================== *)
(** * [auth/middleware.py]                                                *)
(* ===================================================================== *)

(** A registered tool as the middleware sees it: [tool.name] and
    [getattr(tool, 'tags', None)]. *)
Record Tool : Type := MkTool
  { tool_name : string;
    tool_tags : option (list string) }.

(** What [get_access_token()] hands back: nothing, a [ProxmoxMCPToken], or
    an access token of another class, with its [username] attribute when it
    has one. *)
Inductive AccessToken : Type :=
  | ProxmoxToken (token : ProxmoxMCPToken.t)
  | ForeignToken (username : option string).

(** The part of the process and of the request the middleware reads. *)
Record Env : Type := MkEnv
  { FASTMCP_AVAILABLE : bool;
    get_access_token : option AccessToken }.

(** [MiddlewareContext]: [ctx.message.name] and the registry lookup
    [ctx.fastmcp_context.fastmcp.get_tool], [None] standing for a lookup
    that raises. *)
Record MiddlewareContext : Type := MkContext
  { message_name : string;
    get_tool : string -> option Tool }.

(** [call_next]: the rest of the chain. *)
Definition CallNext (A : Type) : Type := MiddlewareContext -> M A.

(** The result of an operation handler. *)
Definition ToolResult : Type := string.

Module ScopeRBAC.
Record t : Type := Build
  { tool_scope_mapping : gmap string (gset string);
    default_scope : string;
    admin_scope : string;
    write_scope : string }.

(** [_get_default_tool_scope_mapping(self)]. *)
Definition _get_default_tool_scope_mapping : gmap string (gset string) :=
  list_to_map
    [ (* Admin-only operations (destructive or sensitive) *)
      ("delete_vm", {["admin"]});
      ("create_vm", {["admin"]});
      ("reset_vm", {["admin"]});
      ("stop_vm", {["admin"]});
      ("shutdown_vm", {["write"]});
      (* Write operations *)
      ("start_vm", {["write"]});
      ("execute_vm_command", {["write"]});
      ("create_snapshot", {["write"]});
      ("rollback_snapshot", {["write"]});
      (* Read-only operations (available to all authenticated users) *)
      ("get_nodes", {["user"]});
      ("get_node_status", {["user"]});
      ("get_vms", {["user"]});
      ("get_containers", {["user"]});
      ("get_storage", {["user"]});
      ("get_cluster_status", {["user"]});
      ("get_vm_usage", {["user"]});
      ("health", {["user"]}) ].

(** [__init__(self, tool_scope_mapping=None, default_scope="user",
    admin_scope="admin", write_scope="write")]; an empty dict is falsy
    and replaced by the default table as [None] is. *)
Definition __init__ (tool_scope_mapping : option (gmap string (gset string)))
    (default_scope admin_scope write_scope : string) : t :=
  Build (match tool_scope_mapping with
         | Some m => if bool_decide (m ≠ ∅) then m
                     else _get_default_tool_scope_mapping
         | None => _get_default_tool_scope_mapping
         end)
        default_scope admin_scope write_scope.

(** [ScopeRBAC()]. *)
Definition default : t := __init__ None "user" "admin" "write".

(** [_get_tool_required_scopes(self, tool_name, tool_tags=None)]. *)
Definition _get_tool_required_scopes (self : t) (tool_name : string)
    (tool_tags : option (list string)) : gset string :=
  match tool_tags with
  | Some (tag :: tags) => list_to_set (tag :: tags)
  | _ =>
      match tool_scope_mapping self !! tool_name with
      | Some required => required
      | None => {[default_scope self]}
      end
  end.

(** Python truthiness of a set: non-empty. *)
Definition truthy (s : gset string) : bool := bool_decide (s ≠ ∅).

(** The body of the [for tool in tools] loop of [on_list_tools];
    [allowed_tools] accumulates the retained tools. *)
Fixpoint filter_tools (self : t) (token : ProxmoxMCPToken.t)
    (tools allowed_tools : list Tool) : M (list Tool) :=
  match tools with
  | [] => mret allowed_tools
  | tool :: rest =>
      let required_scopes :=
        _get_tool_required_scopes self (tool_name tool) (tool_tags tool) in
      if negb (truthy required_scopes)
         || ProxmoxMCPToken.has_any_scope token required_scopes
      then filter_tools self token rest (allowed_tools ++ [tool])
      else
        log DEBUG (ToolFilteredOut (tool_name tool)
                     (ProxmoxMCPToken.username token)
                     required_scopes (ProxmoxMCPToken.scopes token)) ;;
        filter_tools self token rest allowed_tools
  end.

(** [on_list_tools(self, ctx, call_next)]. *)
Definition on_list_tools (self : t) (env : Env) (ctx : MiddlewareContext)
    (call_next : CallNext (list Tool)) : M (list Tool) :=
  if negb (FASTMCP_AVAILABLE env) then call_next ctx
  else
    try_except
      (match get_access_token env with
       | Some (ProxmoxToken token) =>
           tools ← call_next ctx ;
           allowed_tools ← filter_tools self token tools [] ;
           log INFO (UserHasAccess (ProxmoxMCPToken.username token)
                       (length allowed_tools) (length tools)) ;;
           mret allowed_tools
       | _ =>
           log WARNING NoValidTokenForListing ;; mret []
       end)
      (fun e => log ERROR (ErrorInToolFiltering e) ;; mret []).

(** The required scopes the invoke path resolves (lines 190-199): by name
    and tags when the registry lookup succeeds, by name alone when it
    raises. *)
Definition resolve_required_scopes (self : t) (ctx : MiddlewareContext)
    : gset string :=
  let tool_name := message_name ctx in
  match get_tool ctx tool_name with
  | Some tool => _get_tool_required_scopes self tool_name (tool_tags tool)
  | None => _get_tool_required_scopes self tool_name None
  end.

(** [on_call_tool(self, ctx, call_next)]. *)
Definition on_call_tool (self : t) (env : Env) (ctx : MiddlewareContext)
    (call_next : CallNext ToolResult) : M ToolResult :=
  if negb (FASTMCP_AVAILABLE env) then call_next ctx
  else
    try_except
      (match get_access_token env with
       | Some (ProxmoxToken token) =>
           let tool_name := message_name ctx in
           let required_scopes := resolve_required_scopes self ctx in
           if truthy required_scopes
              && negb (ProxmoxMCPToken.has_any_scope token required_scopes)
           then
             let missing_scopes :=
               required_scopes ∖ ProxmoxMCPToken.scopes token in
             raise (ToolError (InsufficientScopes missing_scopes
                                 (ProxmoxMCPToken.scopes token)))
           else
             log DEBUG (UserAuthorized (ProxmoxMCPToken.username token)
                          tool_name) ;;
             call_next ctx
       | _ => raise (ToolError AuthenticationRequired)
       end)
      (fun e =>
         match e with
         | ToolError _ => raise e
         | _ =>
             log ERROR (ErrorInToolAuthorization e) ;;
             raise (ToolError (AuthorizationError e))
         end).
End ScopeRBAC.

Module AuditMiddleware.
Record t : Type := Build
  { log_requests : bool;
    log_responses : bool }.

(** [__init__(self, log_requests=True, log_responses=False)]. *)
Definition __init__ (log_requests log_responses : bool) : t :=
  Build log_requests log_responses.

(** [f"user:{token.username}" if token and hasattr(token, 'username')
    else "anonymous"]; an absent name renders as [None]. *)
Definition user_info (token : option AccessToken) : string :=
  let render (username : option string) : string :=
    match username with
    | Some u => u
    | None => "None"
    end in
  match token with
  | Some (ProxmoxToken t) => "user:" ++ render (ProxmoxMCPToken.username t)
  | Some (ForeignToken (Some u)) => "user:" ++ u
  | Some (ForeignToken None) => "anonymous"
  | None => "anonymous"
  end.

(** [on_call_tool(self, ctx, call_next)]. *)
Definition on_call_tool (self : t) (env : Env) (ctx : MiddlewareContext)
    (call_next : CallNext ToolResult) : M ToolResult :=
  if negb (FASTMCP_AVAILABLE env) then call_next ctx
  else
    let token := get_access_token env in
    let user_info := user_info token in
    let tool_name := message_name ctx in
    try_except
      ((if log_requests self
        then log INFO (AuditCalled user_info tool_name)
        else mret tt) ;;
       result ← call_next ctx ;
       (if log_responses self
        then log INFO (AuditCompleted tool_name user_info)
        else mret tt) ;;
       mret result)
      (fun e =>
         log ERROR (AuditFailed tool_name user_info e) ;;
         raise e).
End AuditMiddleware.

(* ===================================================================== *)
(** * [server_http.py]: the middleware stack                              *)
(* ===================================================================== *)

(** fastmcp's [Middleware] interface, restricted to the two hooks this
    repository overrides.  The base class forwards a hook it does not
    override to [call_next]. *)
Record Middleware : Type := MkMiddleware
  { on_list_tools :
      Env -> MiddlewareContext -> CallNext (list Tool) -> M (list Tool);
    on_call_tool :
      Env -> MiddlewareContext -> CallNext ToolResult -> M ToolResult }.

Definition ScopeRBAC_middleware (self : ScopeRBAC.t) : Middleware :=
  MkMiddleware (ScopeRBAC.on_list_tools self) (ScopeRBAC.on_call_tool self).

Definition AuditMiddleware_middleware (self : AuditMiddleware.t) : Middleware :=
  MkMiddleware (fun _ ctx call_next => call_next ctx)
               (AuditMiddleware.on_call_tool self).

(** fastmcp runs the middleware added with [add_middleware] in the order of
    registration: the first one added is the outermost, and its [call_next]
    is the chain of the ones added after it, ending in the handler. *)
Definition call_tool_chain (env : Env) (middleware : list Middleware)
    (handler : CallNext ToolResult) : CallNext ToolResult :=
  fold_right (fun mw next ctx => on_call_tool mw env ctx next)
             handler middleware.

Definition list_tools_chain (env : Env) (middleware : list Middleware)
    (handler : CallNext (list Tool)) : CallNext (list Tool) :=
  fold_right (fun mw next ctx => on_list_tools mw env ctx next)
             handler middleware.

Module ProxmoxMCPHTTPServer.
Record t : Type := Build
  { use_django_auth : bool;
    middleware : list Middleware }.

(** [_setup_middleware(self)]: the list [self.mcp] holds afterwards. *)
Definition _setup_middleware (use_django_auth : bool) : list Middleware :=
  if use_django_auth then
    let rbac_middleware := ScopeRBAC.default in
    let audit_middleware := AuditMiddleware.__init__ true false in
    [ScopeRBAC_middleware rbac_middleware;
     AuditMiddleware_middleware audit_middleware]
  else [].

(** [__init__]: the attribute is set to [False] whatever the argument
    ("Temporarily disable for testing"). *)
Definition __init__ (use_django_auth : bool) : t :=
  let self_use_django_auth := false in
  Build self_use_django_auth (_setup_middleware self_use_django_auth).

(** [_setup_tools(self)]: the tools registered, in order; none is given
    tags, so each carries the empty set fastmcp defaults to. *)
Definition _setup_tools : list Tool :=
  map (fun name => MkTool name (Some []))
    [ "get_nodes"; "get_node_status"; "get_vms"; "get_vm_usage"; "create_vm";
      "start_vm"; "stop_vm"; "shutdown_vm"; "reset_vm"; "delete_vm";
      "execute_vm_command"; "create_snapshot"; "rollback_snapshot";
      "get_containers"; "get_storage"; "get_cluster_status"; "health" ].
End ProxmoxMCPHTTPServer.

(* ===================================================================== *)
(** * [management/commands/run_mcp_server.py]                             *)
(* ===================================================================== *)

(** [tool_info]: the scope the command prints next to each tool. *)
Definition tool_info : gmap string string :=
  list_to_map
    [ ("get_nodes", "user");
      ("get_node_status", "user");
      ("get_vms", "user");
      ("get_containers", "user");
      ("get_storage", "user");
      ("get_cluster_status", "user");
      ("get_vm_usage", "user");
      ("health", "user");
      ("start_vm", "write");
      ("shutdown_vm", "write");
      ("execute_vm_command", "write");
      ("create_snapshot", "write");
      ("rollback_snapshot", "write");
      ("create_vm", "admin");
      ("stop_vm", "admin");
      ("reset_vm", "admin");
      ("delete_vm", "admin") ].

(* ===================================================================== *)
(** * Vocabulary of the statements                                        *)
(* ===================================================================== *)


(** A lowercase hexadecimal digit: 0-9 or a-f. *)
Definition is_lower_hex (c : ascii) : bool :=
  let n := N_of_ascii c in
  ((48 <=? n) && (n <=? 57) || (97 <=? n) && (n <=? 102))%N.

(** The tiers of the default policy. *)
Definition admin_names : list string :=
  ["delete_vm"; "create_vm"; "reset_vm"; "stop_vm"].
Definition write_names : list string :=
  ["shutdown_vm"; "start_vm"; "execute_vm_command"; "create_snapshot";
   "rollback_snapshot"].
Definition user_names : list string :=
  ["get_nodes"; "get_node_status"; "get_vms"; "get_containers";
   "get_storage"; "get_cluster_status"; "get_vm_usage"; "health"].

(** The token [load_access_token] builds for the row [r]. *)
Definition access_context (self : YartuMCPAuthProvider.t)
    (r : ApplicationToken.t) (token_hash : string) (expires_at : Z)
    : ProxmoxMCPToken.t :=
  ProxmoxMCPToken.Build
    "proxmox-mcp"
    (Some (User.id (ApplicationToken.user r)))
    (Some (User.username (ApplicationToken.user r)))
    (Some (ApplicationToken.permission r))
    expires_at
    (YartuMCPAuthProvider.derive_scopes self (ApplicationToken.user r))
    (Some token_hash)
    (User.is_superuser (ApplicationToken.user r)).

(** The loader turned the token down as expired: it returned [None] after
    the warning "Expired token used by user ...". *)
Definition is_expiry_warning (r : log_record) : bool :=
  match r with
  | LogRecord WARNING (ExpiredTokenUsed _) => true
  | _ => false
  end.

Definition rejected_for_expiry (m : M (option ProxmoxMCPToken.t)) : bool :=
  match result m with
  | Return None => existsb is_expiry_warning (records m)
  | _ => false
  end.

(** Section 4.2 of the specification in its own words: a baseline scope;
    a Role with [is_superuser] adds "admin" and "write"; else a Role with
    [can_write] adds "write"; without a Role the Principal's own superuser
    flag grants both. *)
Definition spec_scopes (baseline admin write : string) (principal : User.t)
    : gset string :=
  {[baseline]} ∪
  match User.role principal with
  | Some role =>
      if UserRole.is_superuser role then {[admin; write]}
      else if UserRole.can_write role then {[write]}
      else ∅
  | None =>
      if User.is_superuser principal then {[admin; write]} else ∅
  end.

(** The test of the list path (line 152) as a proposition. *)
Definition listed (self : ScopeRBAC.t) (token : ProxmoxMCPToken.t)
    (tool : Tool) : Prop :=
  let required :=
    ScopeRBAC._get_tool_required_scopes self (tool_name tool) (tool_tags tool) in
  required = ∅ \/ ProxmoxMCPToken.scopes token ∩ required ≠ ∅.

#[export] Instance listed_dec self token tool : Decision (listed self token tool).
Proof. unfold listed. apply _. Defined.

(** The claim's reading of the list path: a non-empty intersection. *)
Definition intersects (self : ScopeRBAC.t) (token : ProxmoxMCPToken.t)
    (tool : Tool) : Prop :=
  ProxmoxMCPToken.scopes token
  ∩ ScopeRBAC._get_tool_required_scopes self (tool_name tool) (tool_tags tool)
  ≠ ∅.

#[export] Instance intersects_dec self token tool :
  Decision (intersects self token tool).
Proof. unfold intersects. apply _. Defined.

(** The decision of the invoke path (lines 185 and 202): a valid token, and
    no non-empty required set that misses the caller's scopes. *)
Definition authorizes (self : ScopeRBAC.t) (env : Env)
    (ctx : MiddlewareContext) : bool :=
  match get_access_token env with
  | Some (ProxmoxToken token) =>
      let required_scopes := ScopeRBAC.resolve_required_scopes self ctx in
      negb (ScopeRBAC.truthy required_scopes
            && negb (ProxmoxMCPToken.has_any_scope token required_scopes))
  | _ => false
  end.

(** Sample rows: a principal without a role, one with a writing role, and a
    token issued for the raw secret ["s3cret"]. *)
Definition alice : User.t := User.Build 7 "alice" false None.
Definition operator : UserRole.t := UserRole.Build "operator" false true false "".
Definition bob : User.t := User.Build 8 "bob" false (Some operator).
Definition row (user : User.t) (expires : option Z) (is_active : bool)
    : ApplicationToken.t :=
  ApplicationToken.Build user "ci" (hash_sha512 "s3cret") "read" expires 0
                         None is_active "".

(** A caller holding exactly the baseline scope, and a policy with an entry
    that requires no scope. *)
Definition user_token : ProxmoxMCPToken.t :=
  ProxmoxMCPToken.Build "proxmox-mcp" (Some 7) (Some "alice") (Some "read")
                        86400001000 {["user"]} None false.
Definition open_rbac : ScopeRBAC.t :=
  ScopeRBAC.__init__ (Some {["noop" := ∅]}) "user" "admin" "write".
Definition request (name : string) : MiddlewareContext :=
  MkContext name (fun _ => None).
Definition as_user : Env := MkEnv true (Some (ProxmoxToken user_token)).
Definition catalogue : list Tool :=
  [MkTool "get_vms" None; MkTool "delete_vm" None; MkTool "start_vm" None].

(** A string of white space only, and a string without white space. *)
Definition blank (s : string) : Prop :=
  forallb Py.isspace (list_ascii_of_string s) = true.

Definition spaceless (s : string) : Prop :=
  forallb (fun c => negb (Py.isspace c)) (list_ascii_of_string s) = true.

(** [inner] occurs in [outer]. *)
Definition occurs_in (inner outer : string) : Prop :=
  exists before after : string, outer = (before ++ inner ++ after)%string.

(** The characters a token that passes [validate_token_format] can hold:
    alphanumeric ones, the dash, the underscore, the plus sign and the white
    space [int] strips. *)
Definition token_char (c : ascii) : bool :=
  Py.isalnum_char c || Ascii.eqb c "-" || Ascii.eqb c "_" || Ascii.eqb c "+"
  || Py.int_space c.

(** [os.urandom] as the operating system provides it: as many bytes as
    asked for. *)
Definition urandom_ok (urandom : Z -> list Z) : Prop :=
  forall n : Z,
    0 <= n ->
    length (urandom n) = Z.to_nat n
    /\ forallb (fun b => (0 <=? b) && (b <? 256)) (urandom n) = true.

(** Two rows that agree on what the loader reads: the owner, the digest,
    the permission and the expiry. *)
Definition same_credentials (r r' : ApplicationToken.t) : Prop :=
  ApplicationToken.user r = ApplicationToken.user r'
  /\ ApplicationToken.token_hash r = ApplicationToken.token_hash r'
  /\ ApplicationToken.permission r = ApplicationToken.permission r'
  /\ ApplicationToken.expires r = ApplicationToken.expires r'.

(** Sample rows that differ in the fields the loader does not read, and a
    source of bytes. *)
Definition row_in_use : ApplicationToken.t :=
  ApplicationToken.Build alice "laptop" (hash_sha512 "s3cret") "read" None 5
                         (Some 900) false "10.0.0.0/8".
Definition constant_bytes (n : Z) : list Z := repeat 171 (Z.to_nat n).

(** What the owner of a token is granted: [write] by a role that is a
    superuser role or can write, [admin] by a superuser role; without a role
    both by the owner's own superuser flag. *)
Definition grants_write (u : User.t) : bool :=
  match User.role u with
  | Some role => UserRole.is_superuser role || UserRole.can_write role
  | None => User.is_superuser u
  end.

Definition grants_admin (u : User.t) : bool :=
  match User.role u with
  | Some role => UserRole.is_superuser role
  | None => User.is_superuser u
  end.

(** The registry gives the tool that is called no tags (fastmcp's default,
    the empty set), or the lookup fails. *)
Definition untagged (ctx : MiddlewareContext) : Prop :=
  forall tool,
    get_tool ctx (message_name ctx) = Some tool ->
    tool_tags tool = None \/ tool_tags tool = Some [].

(** The constraint [unique=True] of the column [token_hash]: no two rows
    of the table store the same digest. *)
Definition unique_digests (objects : list ApplicationToken.t) : Prop :=
  NoDup (map ApplicationToken.token_hash objects).

(* ===================================================================== *)
(** * Properties of [hash_sha512]                                         *)
(* ===================================================================== *)

Section Digest.

Lemma length_be_bytes (n : nat) (x : Z) : length (Sha512.be_bytes n x) = n.
Proof.
  unfold Sha512.be_bytes.
  now rewrite length_map, length_rev, length_seq.
Qed.

Lemma length_flat_map_const {A B : Type} (f : A -> list B) (k : nat) (l : list A) :
  (forall a, length (f a) = k) -> length (flat_map f l) = (k * length l)%nat.
Proof.
  intros Hf. induction l as [|a l IH]; simpl.
  - lia.
  - rewrite length_app, Hf, IH. lia.
Qed.

Lemma length_digest (msg : list Z) : length (Sha512.digest msg) = 64%nat.
Proof.
  unfold Sha512.digest.
  rewrite (length_flat_map_const _ 8) by (intros; apply length_be_bytes).
  reflexivity.
Qed.

Lemma be_bytes_range (n : nat) (x b : Z) :
  In b (Sha512.be_bytes n x) -> 0 <= b < 256.
Proof.
  unfold Sha512.be_bytes. rewrite in_map_iff.
  intros (i & <- & _). apply Z.mod_pos_bound. lia.
Qed.

Lemma digest_range (msg : list Z) (b : Z) :
  In b (Sha512.digest msg) -> 0 <= b < 256.
Proof.
  unfold Sha512.digest. rewrite in_flat_map.
  intros (w & _ & Hb). eapply be_bytes_range, Hb.
Qed.

Lemma hex_digit_lower (n : Z) :
  0 <= n < 16 -> is_lower_hex (Sha512.hex_digit n) = true.
Proof.
  intros [Hlo Hhi]. rewrite <- (Z2Nat.id n Hlo).
  assert (Z.to_nat n < 16)%nat as Hk by lia.
  generalize dependent (Z.to_nat n). intros k Hk.
  do 16 (destruct k as [|k]; [reflexivity |]). lia.
Qed.

Lemma hex_byte_lower (b : Z) :
  0 <= b < 256 -> Forall (fun c => is_lower_hex c = true) (Sha512.hex_byte b).
Proof.
  intros Hb. unfold Sha512.hex_byte.
  repeat constructor; apply hex_digit_lower.
  - split; [apply Z.div_pos; lia | apply Z.div_lt_upper_bound; lia].
  - apply Z.mod_pos_bound. lia.
Qed.

(** The encoding yields bytes, and leaves the characters below 0x80 as
    they are. *)
Lemma encode_char_bytes (c : ascii) :
  forallb (fun b => (0 <=? b) && (b <? 256)) (encode_char c) = true.
Proof. destruct c as [[] [] [] [] [] [] [] []]; reflexivity. Qed.

Lemma encode_char_ascii (c : ascii) :
  Z.of_N (N_of_ascii c) < 128 -> encode_char c = [Z.of_N (N_of_ascii c)].
Proof.
  intros Hc. unfold encode_char.
  now rewrite (proj2 (Z.ltb_lt _ _) Hc).
Qed.

Lemma string_of_list_ascii_length (l : list ascii) :
  String.length (string_of_list_ascii l) = length l.
Proof. induction l as [|c l IH]; simpl; congruence. Qed.

(** The model agrees with [hashlib] on the FIPS 180-4 test vector, on the
    empty message, on a message of two blocks and on a character above
    0x7f. *)
Example hash_sha512_abc :
  hash_sha512 "abc" =
  "ddaf35a193617abacc417349ae20413112e6fa4e89a97ea20a9eeee64b55d39a2192992a274fc1a836ba3c23a3feebbd454d4423643ce80e2a9ac94fa54ca49f".
Proof. vm_compute. reflexivity. Qed.

Example hash_sha512_empty :
  hash_sha512 "" =
  "cf83e1357eefb8bdf1542850d66d8007d620e4050b5715dc83f4a921d36ce9ce47d0d13c5d85f2b0ff8318d2877eec2f63b931bd47417a81a538327af927da3e".
Proof. vm_compute. reflexivity. Qed.

Example hash_sha512_two_blocks :
  hash_sha512 (string_of_list_ascii (repeat "a"%char 200)) =
  "4b11459c33f52a22ee8236782714c150a3b2c60994e9acee17fe68947a3e6789f31e7668394592da7bef827cddca88c4e6f86e4df7ed1ae6cba71f3e98faee9f".
Proof. vm_compute. reflexivity. Qed.

Example hash_sha512_latin1 :
  hash_sha512 (String "h" (String (ascii_of_N 233) "llo")) =
  "a67e831011aa41ebb2a218c8ff727f1c60d62f06e1681678d176a81cd72ee69e7250c4c943cacbab28e42768615a5c41b6b0d42591d2c26a65670b38e97306dc".
Proof. vm_compute. reflexivity. Qed.


End Digest.

(* ===================================================================== *)
(** * The scope resolver and the two default scope tables                 *)
(* ===================================================================== *)

Section Resolver.

(** The default table of [ScopeRBAC], read by tier. *)
Lemma default_table_lookup (name : string) :
  ScopeRBAC._get_default_tool_scope_mapping !! name =
  if bool_decide (name ∈ admin_names) then Some {["admin"]}
  else if bool_decide (name ∈ write_names) then Some {["write"]}
  else if bool_decide (name ∈ user_names) then Some {["user"]}
  else None.
Proof.
  unfold ScopeRBAC._get_default_tool_scope_mapping.
  repeat rewrite list_to_map_cons. rewrite list_to_map_nil. cbn [fst snd].
  repeat (rewrite lookup_insert; case_decide; [subst name; reflexivity |]).
  rewrite lookup_empty.
  rewrite !bool_decide_eq_false_2; [reflexivity | ..];
    unfold admin_names, write_names, user_names;
    rewrite !elem_of_cons, elem_of_nil; intros Hin;
    repeat (destruct Hin as [-> | Hin]; [congruence |]); exact Hin.
Qed.

Lemma default_table_nonempty (name : string) (required : gset string) :
  ScopeRBAC._get_default_tool_scope_mapping !! name = Some required ->
  required ≠ ∅.
Proof.
  rewrite default_table_lookup.
  repeat case_bool_decide; intros [= <-]; apply non_empty_singleton_L.
Qed.

Lemma default_resolves_nonempty (tool_name : string)
    (tool_tags : option (list string)) :
  ScopeRBAC._get_tool_required_scopes ScopeRBAC.default tool_name tool_tags
  ≠ ∅.
Proof.
  unfold ScopeRBAC._get_tool_required_scopes.
  change (ScopeRBAC.tool_scope_mapping ScopeRBAC.default)
    with ScopeRBAC._get_default_tool_scope_mapping.
  destruct tool_tags as [[|tag tags]|].
  2: { apply (non_empty_inhabited_L tag), elem_of_list_to_set. left. }
  all: destruct (ScopeRBAC._get_default_tool_scope_mapping !! tool_name)
         as [required|] eqn:Hlookup;
    [eapply default_table_nonempty, Hlookup | apply non_empty_singleton_L].
Qed.

(** C8. Whatever the tool name and the tags, a default-constructed
    [ScopeRBAC] resolves a non-empty set of required scopes: non-empty
    tags give themselves, a name of the table gives its entry, and any
    other name gives the single default scope. *)
Theorem required_scopes_nonempty (tool_name : string)
    (tool_tags : option (list string)) :
  ScopeRBAC._get_tool_required_scopes ScopeRBAC.default tool_name tool_tags ≠ ∅
  /\ (ScopeRBAC._get_default_tool_scope_mapping !! tool_name = None ->
      ScopeRBAC._get_tool_required_scopes ScopeRBAC.default tool_name None
      = {["user"]}).
Proof.
  split; [apply default_resolves_nonempty |].
  intros Hnone. unfold ScopeRBAC._get_tool_required_scopes.
  change (ScopeRBAC.tool_scope_mapping ScopeRBAC.default)
    with ScopeRBAC._get_default_tool_scope_mapping.
  now rewrite Hnone.
Qed.

Lemma required_scopes_nonempty_witness :
  ScopeRBAC._get_tool_required_scopes ScopeRBAC.default "migrate_vm" None
  = {["user"]}.
Proof.
  apply (required_scopes_nonempty "migrate_vm" None).
  rewrite default_table_lookup. reflexivity.
Defined.

(** The table of [get_required_scopes], read by tier. *)
Lemma provider_table (self : YartuMCPAuthProvider.t) (name : string) :
  YartuMCPAuthProvider.get_required_scopes self name =
  if bool_decide (name ∈ admin_names ++ ["shutdown_vm"])
  then {[YartuMCPAuthProvider.admin_scope self]}
  else if bool_decide (name ∈ write_names)
  then {[YartuMCPAuthProvider.write_scope self]}
  else {[YartuMCPAuthProvider.user_scope self]}.
Proof.
  unfold YartuMCPAuthProvider.get_required_scopes, admin_names, write_names.
  repeat case_bool_decide; try reflexivity; exfalso;
    repeat match goal with
      | H : _ ∈ _ |- _ => revert H
      | H : ¬ (_ ∈ _) |- _ => revert H
      | H : _ ∉ _ |- _ => revert H
      end;
    cbn [app];
    rewrite ?elem_of_union, ?elem_of_singleton, ?elem_of_cons, ?elem_of_nil;
    tauto.
Qed.

(** The two default policies agree on every name but [shutdown_vm]. *)
Lemma default_policies_agree_elsewhere (name : string) :
  name ≠ "shutdown_vm" ->
  ScopeRBAC._get_tool_required_scopes ScopeRBAC.default name None
  = YartuMCPAuthProvider.get_required_scopes YartuMCPAuthProvider.default name.
Proof.
  intros Hname. rewrite provider_table.
  unfold ScopeRBAC._get_tool_required_scopes.
  change (ScopeRBAC.tool_scope_mapping ScopeRBAC.default)
    with ScopeRBAC._get_default_tool_scope_mapping.
  rewrite default_table_lookup.
  change (ScopeRBAC.default_scope ScopeRBAC.default) with "user".
  change (YartuMCPAuthProvider.admin_scope YartuMCPAuthProvider.default)
    with "admin".
  change (YartuMCPAuthProvider.write_scope YartuMCPAuthProvider.default)
    with "write".
  change (YartuMCPAuthProvider.user_scope YartuMCPAuthProvider.default)
    with "user".
  unfold admin_names, write_names, user_names.
  repeat case_bool_decide; try reflexivity; exfalso;
    repeat match goal with
      | H : _ ∈ _ |- _ => revert H
      | H : ¬ (_ ∈ _) |- _ => revert H
      | H : _ ∉ _ |- _ => revert H
      end;
    cbn [app]; rewrite ?elem_of_cons, ?elem_of_nil;
    intuition congruence.
Qed.

(** The table printed by the server command is the table of [ScopeRBAC]:
    it, too, shows [write] for [shutdown_vm]. *)
Lemma tool_info_is_rbac_table :
  (fun scope : string => ({[scope]} : gset string)) <$> tool_info
  = ScopeRBAC._get_default_tool_scope_mapping.
Proof.
  assert (bool_decide
            ((fun scope : string => ({[scope]} : gset string)) <$> tool_info
             = ScopeRBAC._get_default_tool_scope_mapping) = true) as Hsame
    by (vm_compute; reflexivity).
  exact (bool_decide_eq_true_1 _ Hsame).
Qed.

(** C4. The two embeddings of the default policy differ: [ScopeRBAC]
    requires [write] for [shutdown_vm], [get_required_scopes] requires
    [admin]; so they are not equal as functions of the tool name. *)
Theorem default_policies_differ_at_shutdown_vm :
  ScopeRBAC._get_tool_required_scopes ScopeRBAC.default "shutdown_vm" None
  = {["write"]}
  /\ YartuMCPAuthProvider.get_required_scopes YartuMCPAuthProvider.default
       "shutdown_vm"
     = {["admin"]}
  /\ ScopeRBAC._get_tool_required_scopes ScopeRBAC.default "shutdown_vm" None
     ≠ YartuMCPAuthProvider.get_required_scopes YartuMCPAuthProvider.default
         "shutdown_vm".
Proof.
  assert (ScopeRBAC._get_tool_required_scopes ScopeRBAC.default
            "shutdown_vm" None = {["write"]}) as Hrbac.
  { unfold ScopeRBAC._get_tool_required_scopes.
    change (ScopeRBAC.tool_scope_mapping ScopeRBAC.default)
      with ScopeRBAC._get_default_tool_scope_mapping.
    rewrite default_table_lookup. reflexivity. }
  assert (YartuMCPAuthProvider.get_required_scopes
            YartuMCPAuthProvider.default "shutdown_vm" = {["admin"]}) as Hprov.
  { rewrite provider_table. reflexivity. }
  split; [exact Hrbac |]. split; [exact Hprov |].
  rewrite Hrbac, Hprov. intros Heq.
  apply (f_equal (fun s : gset string => bool_decide ("write" ∈ s))) in Heq.
  rewrite bool_decide_eq_true_2 in Heq by (apply elem_of_singleton; reflexivity).
  rewrite bool_decide_eq_false_2 in Heq; [discriminate |].
  rewrite elem_of_singleton. discriminate.
Qed.

End Resolver.

(* ===================================================================== *)
(** * The access token loader                                             *)
(* ===================================================================== *)

Section MonadLaws.

Context {A B : Type}.

Lemma bind_ret (a : A) (f : A -> M B) : mret a ≫= f = f a.
Proof. unfold mbind, M_bind, mret, M_ret. now destruct (f a). Qed.

End MonadLaws.

Section Loader.

Variable self : YartuMCPAuthProvider.t.

Lemma load_found (objects : list ApplicationToken.t) (now : Z)
    (raw : string) (r : ApplicationToken.t) :
  ApplicationToken.get objects (hash_sha512 raw) = mret r ->
  YartuMCPAuthProvider.load_access_token self true objects now raw =
  match ApplicationToken.expires r with
  | Some e =>
      if bool_decide (e <= now)
      then ([LogRecord WARNING
               (ExpiredTokenUsed (User.username (ApplicationToken.user r)))],
            Return None)
      else ([], Return (Some (access_context self r (hash_sha512 raw)
                                (timestamp e))))
  | None =>
      ([], Return (Some (access_context self r (hash_sha512 raw)
                           (timestamp now + seconds 86400))))
  end.
Proof.
  intros Hget. unfold YartuMCPAuthProvider.load_access_token. cbn [negb].
  rewrite Hget, bind_ret.
  destruct (ApplicationToken.expires r) as [e|]; [case_bool_decide |];
    reflexivity.
Qed.

Lemma load_not_found (objects : list ApplicationToken.t) (now : Z)
    (raw : string) :
  ApplicationToken.get objects (hash_sha512 raw) = raise ObjectDoesNotExist ->
  YartuMCPAuthProvider.load_access_token self true objects now raw =
  ([LogRecord WARNING InvalidTokenAttempted], Return None).
Proof.
  intros Hget. unfold YartuMCPAuthProvider.load_access_token. cbn [negb].
  rewrite Hget. reflexivity.
Qed.

Lemma get_cases (objects : list ApplicationToken.t) (h : string) :
  (exists r, ApplicationToken.get objects h = mret r
             /\ r ∈ objects /\ ApplicationToken.token_hash r = h)
  \/ ApplicationToken.get objects h = raise ObjectDoesNotExist
  \/ ApplicationToken.get objects h = raise MultipleObjectsReturned.
Proof.
  unfold ApplicationToken.get.
  destruct (filter _ objects) as [|r [|r' l]] eqn:Hfilter; auto.
  left. exists r. split; [reflexivity |].
  assert (r ∈ filter (fun r => ApplicationToken.token_hash r = h) objects)
    as Hin by (rewrite Hfilter; left).
  apply list_elem_of_filter in Hin as [Hh Hin]. auto.
Qed.

Lemma get_singleton (r : ApplicationToken.t) (h : string) :
  ApplicationToken.token_hash r = h ->
  ApplicationToken.get [r] h = mret r.
Proof.
  intros Hh. unfold ApplicationToken.get.
  rewrite filter_cons, decide_True by exact Hh. reflexivity.
Qed.

(** The loader always returns: every exception is turned into [None]. *)
Lemma load_returns (dj : bool) (objects : list ApplicationToken.t)
    (now : Z) (raw : string) :
  exists v, result (YartuMCPAuthProvider.load_access_token self dj objects
                      now raw) = Return v.
Proof.
  destruct dj; [| eexists; reflexivity].
  destruct (get_cases objects (hash_sha512 raw))
    as [(r & Hget & _) | [Hget | Hget]].
  - rewrite (load_found _ _ _ _ Hget).
    destruct (ApplicationToken.expires r); [case_bool_decide |];
      eexists; reflexivity.
  - rewrite (load_not_found _ _ _ Hget). eexists; reflexivity.
  - unfold YartuMCPAuthProvider.load_access_token. cbn [negb].
    rewrite Hget. eexists; reflexivity.
Qed.

Lemma filter_hash_set_is_active (active : ApplicationToken.t -> bool)
    (h : string) (objects : list ApplicationToken.t) :
  filter (fun r => ApplicationToken.token_hash r = h)
         (map (fun r => ApplicationToken.set_is_active (active r) r) objects)
  = map (fun r => ApplicationToken.set_is_active (active r) r)
        (filter (fun r => ApplicationToken.token_hash r = h) objects).
Proof.
  induction objects as [|r objects IH]; [reflexivity |].
  cbn [map]. rewrite !filter_cons.
  change (ApplicationToken.token_hash
            (ApplicationToken.set_is_active (active r) r))
    with (ApplicationToken.token_hash r).
  destruct (decide (ApplicationToken.token_hash r = h));
    cbn [map]; now rewrite IH.
Qed.

(** C2 (as amended). The loader never reads [is_active]: whatever flags
    the stored rows carry, the result and the log of [load_access_token]
    are those obtained from the same rows with any other flags.  A row
    that matches the digest and is inactive is therefore handled exactly
    as the same row active, not as a digest without a row. *)
Theorem load_ignores_is_active (dj : bool)
    (objects : list ApplicationToken.t) (now : Z) (raw : string)
    (active : ApplicationToken.t -> bool) :
  YartuMCPAuthProvider.load_access_token self dj
    (map (fun r => ApplicationToken.set_is_active (active r) r) objects)
    now raw
  = YartuMCPAuthProvider.load_access_token self dj objects now raw.
Proof.
  destruct dj; [| reflexivity].
  unfold YartuMCPAuthProvider.load_access_token, ApplicationToken.get.
  cbn [negb]. rewrite filter_hash_set_is_active.
  destruct (filter _ objects) as [|r [|r' l]]; reflexivity.
Qed.

Lemma rejected_for_expiry_found (objects : list ApplicationToken.t)
    (now : Z) (raw : string) (r : ApplicationToken.t) :
  ApplicationToken.get objects (hash_sha512 raw) = mret r ->
  rejected_for_expiry
    (YartuMCPAuthProvider.load_access_token self true objects now raw)
  = match ApplicationToken.expires r with
    | Some e => bool_decide (e <= now)
    | None => false
    end.
Proof.
  intros Hget. rewrite (load_found _ _ _ _ Hget).
  destruct (ApplicationToken.expires r) as [e|]; [case_bool_decide |];
    reflexivity.
Qed.


Lemma derive_scopes_spec (user : User.t) :
  YartuMCPAuthProvider.derive_scopes self user
  = spec_scopes (YartuMCPAuthProvider.user_scope self)
                (YartuMCPAuthProvider.admin_scope self)
                (YartuMCPAuthProvider.write_scope self) user.
Proof.
  unfold YartuMCPAuthProvider.derive_scopes, spec_scopes.
  destruct (User.role user) as [role|].
  - destruct (UserRole.is_superuser role);
      [| destruct (UserRole.can_write role)].
    + now rewrite <- (assoc_L (∪)).
    + reflexivity.
    + now rewrite (right_id_L ∅ (∪)).
  - destruct (User.is_superuser user).
    + reflexivity.
    + now rewrite (right_id_L ∅ (∪)).
Qed.

(** The model's own [is_expired] compares strictly: whatever it reports
    expired the loader rejects, and the two differ only at the instant of
    expiry itself. *)
Lemma is_expired_then_rejected (objects : list ApplicationToken.t) (now : Z)
    (raw : string) (r : ApplicationToken.t) :
  ApplicationToken.get objects (hash_sha512 raw) = mret r ->
  ApplicationToken.is_expired r now = true ->
  rejected_for_expiry
    (YartuMCPAuthProvider.load_access_token self true objects now raw) = true.
Proof.
  intros Hget Hexpired. rewrite (rejected_for_expiry_found _ _ _ _ Hget).
  unfold ApplicationToken.is_expired in Hexpired.
  destruct (ApplicationToken.expires r) as [e|]; [| discriminate].
  apply bool_decide_eq_true in Hexpired. apply bool_decide_eq_true. lia.
Qed.

(** [from_django_user] derives the same scopes under the fixed names. *)
Lemma from_django_user_scopes (user : User.t) (permission : string)
    (expires_days now : Z) :
  ProxmoxMCPToken.scopes
    (ProxmoxMCPToken.from_django_user user permission expires_days now)
  = spec_scopes "user" "admin" "write" user.
Proof.
  unfold ProxmoxMCPToken.from_django_user, spec_scopes.
  cbn [ProxmoxMCPToken.scopes].
  destruct (User.role user) as [role|].
  - destruct (UserRole.is_superuser role);
      [| destruct (UserRole.can_write role)].
    + now rewrite <- (assoc_L (∪)).
    + reflexivity.
    + now rewrite (right_id_L ∅ (∪)).
  - destruct (User.is_superuser user).
    + reflexivity.
    + now rewrite (right_id_L ∅ (∪)).
Qed.

(** C7. Whenever the loader returns a token, it comes from a stored row
    with the digest of the raw token, and its scope set is the one the
    specification describes for the owner of that row: the baseline scope;
    plus admin and write when the owner's role is a superuser role; else
    plus write when the role can write; and, without a role, plus admin
    and write when the owner is a superuser. *)
Theorem loaded_scopes_follow_spec (dj : bool)
    (objects : list ApplicationToken.t) (now : Z) (raw : string)
    (tok : ProxmoxMCPToken.t) :
  result (YartuMCPAuthProvider.load_access_token self dj objects now raw)
  = Return (Some tok) ->
  exists r,
    r ∈ objects
    /\ ApplicationToken.token_hash r = hash_sha512 raw
    /\ ProxmoxMCPToken.user_id tok = Some (User.id (ApplicationToken.user r))
    /\ ProxmoxMCPToken.scopes tok
       = spec_scopes (YartuMCPAuthProvider.user_scope self)
                     (YartuMCPAuthProvider.admin_scope self)
                     (YartuMCPAuthProvider.write_scope self)
                     (ApplicationToken.user r).
Proof.
  destruct dj; [| discriminate].
  destruct (get_cases objects (hash_sha512 raw))
    as [(r & Hget & Hin & Hhash) | [Hget | Hget]].
  - rewrite (load_found _ _ _ _ Hget). intros Hres.
    exists r. split; [exact Hin |]. split; [exact Hhash |].
    rewrite <- derive_scopes_spec.
    enough (tok = access_context self r (hash_sha512 raw)
                    (ProxmoxMCPToken.expires_at tok)) as -> by (split; reflexivity).
    destruct (ApplicationToken.expires r) as [e|];
      [case_bool_decide; [discriminate |] |];
      injection Hres as <-; reflexivity.
  - rewrite (load_not_found _ _ _ Hget). discriminate.
  - unfold YartuMCPAuthProvider.load_access_token. cbn [negb].
    rewrite Hget. discriminate.
Qed.


End Loader.

Section LoaderExamples.

Lemma row_found (user : User.t) (expires : option Z) (is_active : bool) :
  ApplicationToken.get [row user expires is_active] (hash_sha512 "s3cret")
  = mret (row user expires is_active).
Proof. apply get_singleton. reflexivity. Qed.

(** C2, counterexample. A row that is inactive matches the digest of
    ["s3cret"]; the loader returns a token for it, whereas it returns
    [None] when no row matches. *)
Lemma inactive_token_is_loaded :
  ApplicationToken.is_active (row alice None false) = false
  /\ ApplicationToken.token_hash (row alice None false) = hash_sha512 "s3cret"
  /\ YartuMCPAuthProvider.load_access_token YartuMCPAuthProvider.default true
       [row alice None false] 1000 "s3cret"
     = ([], Return (Some (access_context YartuMCPAuthProvider.default (row alice None false)
                            (hash_sha512 "s3cret")
                            (timestamp 1000 + seconds 86400))))
  /\ YartuMCPAuthProvider.load_access_token YartuMCPAuthProvider.default true [] 1000 "s3cret"
     = ([LogRecord WARNING InvalidTokenAttempted], Return None)
  /\ result (YartuMCPAuthProvider.load_access_token YartuMCPAuthProvider.default true
               [row alice None false] 1000 "s3cret")
     <> result (YartuMCPAuthProvider.load_access_token YartuMCPAuthProvider.default true
                  [] 1000 "s3cret").
Proof.
  pose proof (load_found YartuMCPAuthProvider.default _ 1000 _ _ (row_found alice None false))
    as Hfound.
  pose proof (load_not_found YartuMCPAuthProvider.default [] 1000 "s3cret" eq_refl) as Hnone.
  split; [reflexivity |]. split; [reflexivity |].
  split; [exact Hfound |]. split; [exact Hnone |].
  rewrite Hfound, Hnone. discriminate.
Qed.



Lemma loaded_scopes_follow_spec_witness :
  exists r,
    r ∈ [row bob None true]
    /\ ApplicationToken.token_hash r = hash_sha512 "s3cret"
    /\ ProxmoxMCPToken.user_id
         (access_context YartuMCPAuthProvider.default (row bob None true)
            (hash_sha512 "s3cret") (timestamp 1000 + seconds 86400))
       = Some (User.id (ApplicationToken.user r))
    /\ ProxmoxMCPToken.scopes
         (access_context YartuMCPAuthProvider.default (row bob None true)
            (hash_sha512 "s3cret") (timestamp 1000 + seconds 86400))
       = spec_scopes "user" "admin" "write" (ApplicationToken.user r).
Proof.
  apply (loaded_scopes_follow_spec YartuMCPAuthProvider.default true
           [row bob None true] 1000 "s3cret"
           (access_context YartuMCPAuthProvider.default (row bob None true)
              (hash_sha512 "s3cret") (timestamp 1000 + seconds 86400))).
  rewrite (load_found YartuMCPAuthProvider.default _ 1000 _ _
             (row_found bob None true)).
  reflexivity.
Defined.

(** The scopes of the witness: a role that can write adds [write]. *)
Example operator_scopes :
  spec_scopes "user" "admin" "write" bob = {["user"; "write"]}
  /\ spec_scopes "user" "admin" "write" alice = {["user"]}
  /\ spec_scopes "user" "admin" "write" (User.Build 1 "root" true None)
     = {["user"; "admin"; "write"]}.
Proof. repeat split; vm_compute; reflexivity. Qed.


End LoaderExamples.

(* ===================================================================== *)
(** * The RBAC middleware                                                 *)
(* ===================================================================== *)

Section ListPath.

Variable self : ScopeRBAC.t.
Variable token : ProxmoxMCPToken.t.

Lemma listed_test (tool : Tool) :
  let required :=
    ScopeRBAC._get_tool_required_scopes self (tool_name tool)
      (tool_tags tool) in
  negb (ScopeRBAC.truthy required)
  || ProxmoxMCPToken.has_any_scope token required
  = bool_decide (listed self token tool).
Proof.
  cbn zeta. unfold ScopeRBAC.truthy, ProxmoxMCPToken.has_any_scope, listed.
  repeat case_bool_decide; cbn [negb orb]; try reflexivity; tauto.
Qed.

Lemma filter_tools_result (tools allowed : list Tool) :
  result (ScopeRBAC.filter_tools self token tools allowed)
  = Return (allowed ++ filter (listed self token) tools).
Proof.
  revert allowed. induction tools as [|tool tools IH]; intros allowed.
  - cbn. now rewrite app_nil_r.
  - cbn [ScopeRBAC.filter_tools]. rewrite listed_test, filter_cons.
    case_bool_decide as Hlisted.
    + rewrite decide_True by exact Hlisted.
      rewrite IH. now rewrite <- app_assoc.
    + rewrite decide_False by exact Hlisted.
      unfold mbind, M_bind, log.
      specialize (IH allowed).
      destruct (ScopeRBAC.filter_tools self token tools allowed) as [l r].
      exact IH.
Qed.

Lemma on_list_tools_result (env : Env) (ctx : MiddlewareContext)
    (call_next : CallNext (list Tool)) (l : list log_record)
    (tools : list Tool) :
  FASTMCP_AVAILABLE env = true ->
  get_access_token env = Some (ProxmoxToken token) ->
  call_next ctx = (l, Return tools) ->
  result (ScopeRBAC.on_list_tools self env ctx call_next)
  = Return (filter (listed self token) tools).
Proof.
  intros Havail Htoken Hnext. unfold ScopeRBAC.on_list_tools.
  rewrite Havail, Htoken, Hnext. cbn [negb].
  pose proof (filter_tools_result tools []) as Hfilter.
  unfold mbind, M_bind.
  destruct (ScopeRBAC.filter_tools self token tools []) as [l' r].
  cbn in Hfilter. subst r. reflexivity.
Qed.

End ListPath.

Section ListPathClaims.

Lemma listed_iff_intersects (token : ProxmoxMCPToken.t) (tool : Tool) :
  listed ScopeRBAC.default token tool <-> intersects ScopeRBAC.default token tool.
Proof.
  unfold listed, intersects. cbn zeta.
  pose proof (default_resolves_nonempty (tool_name tool) (tool_tags tool)).
  tauto.
Qed.

Lemma intersects_user_only (self : ScopeRBAC.t) (token : ProxmoxMCPToken.t)
    (tool : Tool) :
  ProxmoxMCPToken.scopes token = {["user"]} ->
  intersects self token tool
  <-> "user" ∈ ScopeRBAC._get_tool_required_scopes self (tool_name tool)
                 (tool_tags tool).
Proof.
  unfold intersects. intros ->. split.
  - intros Hne. apply set_choose_L in Hne as (x & Hx).
    apply elem_of_intersection in Hx as [Hx%elem_of_singleton Hreq].
    now subst x.
  - intros Hin. apply (non_empty_inhabited_L "user").
    apply elem_of_intersection. split; [now apply elem_of_singleton | exact Hin].
Qed.

(** C6 (as amended). With a valid token the list path returns exactly the
    tools whose resolved required-scope set is empty or meets the caller's
    scope set.  With a default-constructed [ScopeRBAC], which resolves no
    empty set, these are exactly the tools whose required set meets the
    caller's (any of, not all of); for a caller holding exactly [user],
    exactly the tools whose required set contains [user].  Without a valid
    token the list path returns the empty list, not an error. *)
Theorem list_path_filters (env : Env) (ctx : MiddlewareContext)
    (call_next : CallNext (list Tool)) :
  FASTMCP_AVAILABLE env = true ->
  (forall self token l tools,
      get_access_token env = Some (ProxmoxToken token) ->
      call_next ctx = (l, Return tools) ->
      result (ScopeRBAC.on_list_tools self env ctx call_next)
      = Return (filter (listed self token) tools))
  /\ (forall token l tools,
        get_access_token env = Some (ProxmoxToken token) ->
        call_next ctx = (l, Return tools) ->
        result (ScopeRBAC.on_list_tools ScopeRBAC.default env ctx call_next)
        = Return (filter (intersects ScopeRBAC.default token) tools))
  /\ (forall token l tools,
        get_access_token env = Some (ProxmoxToken token) ->
        call_next ctx = (l, Return tools) ->
        ProxmoxMCPToken.scopes token = {["user"]} ->
        result (ScopeRBAC.on_list_tools ScopeRBAC.default env ctx call_next)
        = Return (filter
                    (fun tool =>
                       "user" ∈ ScopeRBAC._get_tool_required_scopes
                                  ScopeRBAC.default (tool_name tool)
                                  (tool_tags tool))
                    tools))
  /\ (forall self,
        (get_access_token env = None
         \/ exists u, get_access_token env = Some (ForeignToken u)) ->
        ScopeRBAC.on_list_tools self env ctx call_next
        = ([LogRecord WARNING NoValidTokenForListing], Return [])).
Proof.
  intros Havail. split; [| split; [| split]].
  - intros self token l tools Htoken Hnext.
    eapply on_list_tools_result; eassumption.
  - intros token l tools Htoken Hnext.
    rewrite (on_list_tools_result _ _ _ _ _ _ _ Havail Htoken Hnext).
    f_equal. apply list_filter_iff. intros tool. apply listed_iff_intersects.
  - intros token l tools Htoken Hnext Huser.
    rewrite (on_list_tools_result _ _ _ _ _ _ _ Havail Htoken Hnext).
    f_equal. apply list_filter_iff. intros tool.
    rewrite listed_iff_intersects. now apply intersects_user_only.
  - intros self Hnone. unfold ScopeRBAC.on_list_tools. rewrite Havail.
    destruct Hnone as [-> | (u & ->)]; reflexivity.
Qed.

Lemma list_path_filters_witness :
  result (ScopeRBAC.on_list_tools ScopeRBAC.default as_user
            (request "tools/list") (fun _ => mret catalogue))
  = Return (filter (intersects ScopeRBAC.default user_token) catalogue).
Proof.
  destruct (list_path_filters as_user (request "tools/list")
              (fun _ => mret catalogue) eq_refl) as (_ & Hdefault & _).
  apply (Hdefault user_token [] catalogue); reflexivity.
Defined.

(** What the baseline caller sees of the catalogue. *)
Example baseline_caller_listing :
  filter (intersects ScopeRBAC.default user_token) catalogue
  = [MkTool "get_vms" None].
Proof. vm_compute. reflexivity. Qed.

(** C6, counterexample. A policy given at construction maps [noop] to the
    empty set; the caller's scopes and that set do not meet, and yet the
    list path returns the tool. *)
Lemma tool_without_required_scope_is_listed :
  ProxmoxMCPToken.scopes user_token
  ∩ ScopeRBAC._get_tool_required_scopes open_rbac "noop" None = ∅
  /\ result (ScopeRBAC.on_list_tools open_rbac as_user (request "tools/list")
               (fun _ => mret [MkTool "noop" None]))
     = Return [MkTool "noop" None].
Proof.
  assert (ScopeRBAC._get_tool_required_scopes open_rbac "noop" None = ∅)
    as Hreq by (vm_compute; reflexivity).
  split.
  - rewrite Hreq. apply (right_absorb_L ∅ (∩)).
  - rewrite (on_list_tools_result open_rbac user_token as_user _ _ []
               [MkTool "noop" None] eq_refl eq_refl eq_refl).
    rewrite filter_cons, decide_True; [reflexivity |].
    left. exact Hreq.
Qed.

End ListPathClaims.

Lemma missing_all_when_disjoint (held required : gset string) :
  held ∩ required = ∅ -> required ∖ held = required.
Proof.
  intros Hdisjoint. apply set_eq. intros x. rewrite elem_of_difference.
  split; [tauto |]. intros Hx. split; [exact Hx |]. intros Hheld.
  assert (x ∈ held ∩ required) as Hboth by (apply elem_of_intersection; auto).
  rewrite Hdisjoint in Hboth. now apply not_elem_of_empty in Hboth.
Qed.

Section InvokePath.

Variable self : ScopeRBAC.t.
Variable env : Env.
Variable ctx : MiddlewareContext.
Hypothesis Havail : FASTMCP_AVAILABLE env = true.

Lemma on_call_tool_denied (call_next : CallNext ToolResult)
    (token : ProxmoxMCPToken.t) :
  get_access_token env = Some (ProxmoxToken token) ->
  ScopeRBAC.resolve_required_scopes self ctx ≠ ∅ ->
  ProxmoxMCPToken.scopes token ∩ ScopeRBAC.resolve_required_scopes self ctx = ∅ ->
  ScopeRBAC.on_call_tool self env ctx call_next
  = raise (ToolError
             (InsufficientScopes
                (ScopeRBAC.resolve_required_scopes self ctx
                 ∖ ProxmoxMCPToken.scopes token)
                (ProxmoxMCPToken.scopes token))).
Proof.
  intros Htoken Hne Hdisjoint. unfold ScopeRBAC.on_call_tool.
  rewrite Havail, Htoken. cbn [negb].
  unfold ScopeRBAC.truthy, ProxmoxMCPToken.has_any_scope.
  rewrite bool_decide_eq_true_2 by exact Hne.
  rewrite bool_decide_eq_false_2 by (intros Hmeet; now apply Hmeet).
  reflexivity.
Qed.

Lemma on_call_tool_unauthenticated (call_next : CallNext ToolResult) :
  (get_access_token env = None
   \/ exists u, get_access_token env = Some (ForeignToken u)) ->
  ScopeRBAC.on_call_tool self env ctx call_next
  = raise (ToolError AuthenticationRequired).
Proof.
  intros Hnone. unfold ScopeRBAC.on_call_tool. rewrite Havail.
  destruct Hnone as [-> | (u & ->)]; reflexivity.
Qed.

Lemma authorizes_false_cases :
  authorizes self env ctx = false ->
  (get_access_token env = None
   \/ exists u, get_access_token env = Some (ForeignToken u))
  \/ exists token,
       get_access_token env = Some (ProxmoxToken token)
       /\ ScopeRBAC.resolve_required_scopes self ctx ≠ ∅
       /\ ProxmoxMCPToken.scopes token
          ∩ ScopeRBAC.resolve_required_scopes self ctx = ∅.
Proof.
  unfold authorizes.
  destruct (get_access_token env) as [[token | u] |]; eauto.
  unfold ScopeRBAC.truthy, ProxmoxMCPToken.has_any_scope.
  intros Hdenied. right. exists token. split; [reflexivity |].
  apply negb_false_iff, andb_true_iff in Hdenied as [Hne Hmiss].
  apply bool_decide_eq_true in Hne.
  apply negb_true_iff, bool_decide_eq_false in Hmiss.
  split; [exact Hne |].
  destruct (decide (ProxmoxMCPToken.scopes token
                    ∩ ScopeRBAC.resolve_required_scopes self ctx = ∅));
    [assumption | contradiction].
Qed.

(** A denied call leaves no log record and ends in a [ToolError], whatever
    the rest of the chain is. *)
Lemma on_call_tool_refused (call_next : CallNext ToolResult) :
  authorizes self env ctx = false ->
  exists text,
    ScopeRBAC.on_call_tool self env ctx call_next = raise (ToolError text).
Proof.
  intros Hdenied.
  destruct (authorizes_false_cases Hdenied)
    as [Hnone | (token & Htoken & Hne & Hdisjoint)].
  - eexists. now apply on_call_tool_unauthenticated.
  - eexists. eapply on_call_tool_denied; eassumption.
Qed.

(** An authorized call logs the grant and runs the rest of the chain;
    an exception of the chain other than [ToolError] is logged and
    wrapped. *)
Lemma on_call_tool_granted (call_next : CallNext ToolResult)
    (token : ProxmoxMCPToken.t) :
  get_access_token env = Some (ProxmoxToken token) ->
  authorizes self env ctx = true ->
  ScopeRBAC.on_call_tool self env ctx call_next
  = let granted :=
      LogRecord DEBUG (UserAuthorized (ProxmoxMCPToken.username token)
                         (message_name ctx)) in
    match call_next ctx with
    | (l, Return v) => (granted :: l, Return v)
    | (l, Raise (ToolError text)) => (granted :: l, Raise (ToolError text))
    | (l, Raise e) =>
        (granted :: l ++ [LogRecord ERROR (ErrorInToolAuthorization e)],
         Raise (ToolError (AuthorizationError e)))
    end.
Proof.
  intros Htoken Hgranted. unfold authorizes in Hgranted.
  rewrite Htoken in Hgranted. cbn zeta in Hgranted.
  apply negb_true_iff in Hgranted.
  unfold ScopeRBAC.on_call_tool. rewrite Havail, Htoken. cbn [negb].
  rewrite Hgranted.
  unfold mbind, M_bind, try_except, log, raise.
  destruct (call_next ctx) as [l [v | e]]; [reflexivity |].
  destruct e; cbn [app]; rewrite ?app_nil_r; reflexivity.
Qed.

(** Without the fastmcp middleware API the hook is a pass-through. *)
Lemma on_call_tool_without_fastmcp (env' : Env)
    (call_next : CallNext ToolResult) :
  FASTMCP_AVAILABLE env' = false ->
  ScopeRBAC.on_call_tool self env' ctx call_next = call_next ctx.
Proof. intros Hoff. unfold ScopeRBAC.on_call_tool. now rewrite Hoff. Qed.

(** C1. With a valid token whose scopes are disjoint from the non-empty
    set of scopes the invoke path resolves for the tool, [on_call_tool]
    raises the authorization error that names the required scopes as
    missing and the caller's scopes as held, and writes no log record.  It
    does so whatever [call_next] is, and any two continuations give the same
    run: the rest of the chain, and with it the operation handler, is never
    invoked. *)
Theorem on_call_tool_rejects_disjoint (call_next : CallNext ToolResult)
    (token : ProxmoxMCPToken.t) :
  get_access_token env = Some (ProxmoxToken token) ->
  ScopeRBAC.resolve_required_scopes self ctx ≠ ∅ ->
  ProxmoxMCPToken.scopes token ∩ ScopeRBAC.resolve_required_scopes self ctx = ∅ ->
  ScopeRBAC.on_call_tool self env ctx call_next
  = ([], Raise (ToolError
                  (InsufficientScopes
                     (ScopeRBAC.resolve_required_scopes self ctx)
                     (ProxmoxMCPToken.scopes token))))
  /\ forall call_next' : CallNext ToolResult,
       ScopeRBAC.on_call_tool self env ctx call_next'
       = ScopeRBAC.on_call_tool self env ctx call_next.
Proof.
  intros Htoken Hne Hdisjoint. split.
  - rewrite (on_call_tool_denied call_next token Htoken Hne Hdisjoint).
    now rewrite (missing_all_when_disjoint _ _ Hdisjoint).
  - intros call_next'.
    now rewrite !(on_call_tool_denied _ token Htoken Hne Hdisjoint).
Qed.

End InvokePath.

Lemma on_call_tool_rejects_disjoint_witness :
  ScopeRBAC.on_call_tool ScopeRBAC.default as_user (request "delete_vm")
    (fun _ => mret "deleted")
  = ([], Raise (ToolError
                  (InsufficientScopes
                     (ScopeRBAC.resolve_required_scopes ScopeRBAC.default
                        (request "delete_vm"))
                     (ProxmoxMCPToken.scopes user_token)))).
Proof.
  apply (on_call_tool_rejects_disjoint ScopeRBAC.default as_user
           (request "delete_vm") eq_refl (fun _ => mret "deleted") user_token
           eq_refl).
  - vm_compute. discriminate.
  - vm_compute. reflexivity.
Defined.

(** The required set of the witness, and the message of the denial. *)
Example delete_vm_requires_admin :
  ScopeRBAC.resolve_required_scopes ScopeRBAC.default (request "delete_vm")
  = {["admin"]}
  /\ ProxmoxMCPToken.scopes user_token = {["user"]}.
Proof. split; vm_compute; reflexivity. Qed.

(* ===================================================================== *)
(** * The audit middleware and the registered chain                       *)
(* ===================================================================== *)

Section Audit.

Variable env : Env.
Variable ctx : MiddlewareContext.
Variable handler : CallNext ToolResult.
Hypothesis Havail : FASTMCP_AVAILABLE env = true.




(** On the list path the audit middleware forwards, so the registered
    chain is the RBAC filter applied to the registry's answer. *)
Lemma registered_list_chain (tools : CallNext (list Tool)) :
  list_tools_chain env (ProxmoxMCPHTTPServer._setup_middleware true) tools ctx
  = ScopeRBAC.on_list_tools ScopeRBAC.default env ctx tools.
Proof. reflexivity. Qed.


End Audit.



(** The server as constructed registers nothing: [use_django_auth] is
    forced to [False] before [_setup_middleware] runs. *)
Lemma server_registers_no_middleware (use_django_auth : bool) :
  ProxmoxMCPHTTPServer.middleware
    (ProxmoxMCPHTTPServer.__init__ use_django_auth) = [].
Proof. reflexivity. Qed.

(* ===================================================================== *)
(** * [extract_bearer_token]                                              *)
(* ===================================================================== *)

Section Bearer.

Lemma chars_app (a b : string) :
  list_ascii_of_string (a ++ b)%string
  = list_ascii_of_string a ++ list_ascii_of_string b.
Proof.
  induction a as [|c a IH]; [reflexivity |].
  change (String c a ++ b)%string with (String c (a ++ b)%string).
  cbn [list_ascii_of_string app]. now rewrite IH.
Qed.

Lemma string_of_chars_app (a b : list ascii) :
  string_of_list_ascii (a ++ b)
  = (string_of_list_ascii a ++ string_of_list_ascii b)%string.
Proof.
  induction a as [|c a IH]; [reflexivity |].
  cbn [string_of_list_ascii app]. rewrite IH. reflexivity.
Qed.

Lemma string_by_chars (a b : string) :
  list_ascii_of_string a = list_ascii_of_string b -> a = b.
Proof.
  intros Heq. rewrite <- (string_of_list_ascii_of_string a).
  rewrite <- (string_of_list_ascii_of_string b). now rewrite Heq.
Qed.

Lemma split_chars_word (a s w : list ascii) :
  forallb (fun c => negb (Py.isspace c)) a = true ->
  Py.split_chars (a ++ s) w = Py.split_chars s (rev a ++ w).
Proof.
  revert w. induction a as [|c a IH]; intros w Ha; [reflexivity |].
  cbn in Ha. apply andb_true_iff in Ha as [Hc Ha].
  apply negb_true_iff in Hc. cbn [app Py.split_chars]. rewrite Hc.
  rewrite (IH _ Ha). cbn [rev]. now rewrite <- app_assoc.
Qed.

Lemma split_chars_blank (ws s : list ascii) :
  forallb Py.isspace ws = true ->
  Py.split_chars (ws ++ s) [] = Py.split_chars s [].
Proof.
  induction ws as [|c ws IH]; intros Hws; [reflexivity |].
  cbn in Hws. apply andb_true_iff in Hws as [Hc Hws].
  cbn [app Py.split_chars]. rewrite Hc. cbn [Py.close_word]. now apply IH.
Qed.

Lemma split_chars_end_of_word (c : ascii) (ws s w : list ascii) :
  Py.isspace c = true -> forallb Py.isspace ws = true ->
  Py.split_chars (c :: ws ++ s) w
  = Py.close_word w (Py.split_chars s []).
Proof.
  intros Hc Hws. cbn [Py.split_chars]. rewrite Hc.
  now rewrite (split_chars_blank _ _ Hws).
Qed.

Lemma close_word_rev (a : list ascii) (parts : list string) :
  a <> [] ->
  Py.close_word (rev a) parts = string_of_list_ascii a :: parts.
Proof.
  intros Ha. unfold Py.close_word.
  destruct (rev a) as [|c r] eqn:Hrev.
  - apply (f_equal (@rev ascii)) in Hrev. rewrite rev_involutive in Hrev.
    now subst a.
  - now rewrite <- Hrev, rev_involutive.
Qed.

(** Every field that [split] returns is non-empty, free of white space and
    a piece of the text that was split. *)
Lemma split_chars_parts (s w : list ascii) (part : string) :
  forallb (fun c => negb (Py.isspace c)) w = true ->
  In part (Py.split_chars s w) ->
  part <> ""
  /\ spaceless part
  /\ exists before after : list ascii,
       (rev w ++ s = before ++ list_ascii_of_string part ++ after)%list.
Proof.
  revert w. induction s as [|c s IH]; intros w Hw Hin.
  - cbn in Hin. destruct w as [|x w]; [contradiction |].
    destruct Hin as [<- | []].
    assert (rev (x :: w) <> []) as Hne.
    { intros Hnil. apply (f_equal (@length ascii)) in Hnil.
      rewrite length_rev in Hnil. discriminate. }
    split; [| split].
    + destruct (rev (x :: w)); [contradiction | discriminate].
    + unfold spaceless. rewrite list_ascii_of_string_of_list_ascii.
      rewrite forallb_forall in *. intros y Hy. apply Hw.
      now apply in_rev.
    + exists [], []. rewrite list_ascii_of_string_of_list_ascii.
      now rewrite app_nil_r.
  - cbn [Py.split_chars] in Hin. destruct (Py.isspace c) eqn:Hc.
    + assert (In part (Py.split_chars s []) ->
              part <> "" /\ spaceless part
              /\ exists before after : list ascii,
                   (rev w ++ c :: s
                    = before ++ list_ascii_of_string part ++ after)%list)
        as Hrest.
      { intros Hin'. destruct (IH [] eq_refl Hin')
          as (Hne & Hsp & before & after & Heq).
        split; [exact Hne |]. split; [exact Hsp |].
        exists (rev w ++ c :: before)%list, after.
        cbn in Heq. rewrite Heq. now rewrite <- app_assoc. }
      destruct w as [|x w]; [exact (Hrest Hin) |].
      cbn [Py.close_word] in Hin. destruct Hin as [<- | Hin];
        [| exact (Hrest Hin)].
      assert (rev (x :: w) <> []) as Hne.
      { intros Hnil. apply (f_equal (@length ascii)) in Hnil.
        rewrite length_rev in Hnil. discriminate. }
      split; [| split].
      * destruct (rev (x :: w)); [contradiction | discriminate].
      * unfold spaceless. rewrite list_ascii_of_string_of_list_ascii.
        rewrite forallb_forall in *. intros y Hy. apply Hw.
        now apply in_rev.
      * exists [], (c :: s). now rewrite list_ascii_of_string_of_list_ascii.
    + assert (forallb (fun c => negb (Py.isspace c)) (c :: w) = true) as Hw'.
      { cbn. now rewrite Hc, Hw. }
      destruct (IH (c :: w) Hw' Hin) as (Hne & Hsp & before & after & Heq).
      split; [exact Hne |]. split; [exact Hsp |].
      exists before, after. rewrite <- Heq. cbn [rev].
      now rewrite <- app_assoc.
Qed.

Lemma lower_keeps_space (c : ascii) :
  Py.isspace c = true -> Py.isspace (Py.lower_char c) = true.
Proof.
  destruct c as [[] [] [] [] [] [] [] []]; vm_compute;
    first [reflexivity | discriminate].
Qed.

Lemma lowered_spaceless (s t : string) :
  Py.lower s = t -> spaceless t -> spaceless s.
Proof.
  unfold spaceless, Py.lower. revert t.
  induction s as [|c s IH]; intros t <- Ht; [reflexivity |].
  cbn in Ht |- *. apply andb_true_iff in Ht as [Hc Ht].
  rewrite (IH _ eq_refl Ht), andb_true_r.
  destruct (Py.isspace c) eqn:Hspace; [| reflexivity].
  now rewrite (lower_keeps_space _ Hspace) in Hc.
Qed.

Lemma spaceless_nonempty_chars (s : string) :
  s <> "" -> list_ascii_of_string s <> [].
Proof. destruct s; [contradiction | discriminate]. Qed.

Lemma split_two_fields (ws1 scheme ws2 token ws3 : string) :
  blank ws1 -> blank ws2 -> ws2 <> "" -> blank ws3 ->
  scheme <> "" -> spaceless scheme -> token <> "" -> spaceless token ->
  Py.split (ws1 ++ scheme ++ ws2 ++ token ++ ws3)%string = [scheme; token].
Proof.
  unfold blank, spaceless, Py.split.
  intros Hws1 Hws2 Hne2 Hws3 Hnes Hscheme Hnet Htoken.
  rewrite !chars_app.
  rewrite (split_chars_blank _ _ Hws1).
  rewrite (split_chars_word _ _ _ Hscheme), app_nil_r.
  destruct (list_ascii_of_string ws2) as [|x ws2'] eqn:Hchars2.
  { destruct ws2; [contradiction | discriminate]. }
  cbn in Hws2. apply andb_true_iff in Hws2 as [Hx Hws2].
  cbn [app]. rewrite (split_chars_end_of_word _ _ _ _ Hx Hws2).
  rewrite close_word_rev by now apply spaceless_nonempty_chars.
  rewrite string_of_list_ascii_of_string. f_equal.
  rewrite (split_chars_word _ _ _ Htoken), app_nil_r.
  destruct (list_ascii_of_string ws3) as [|y ws3'] eqn:Hchars3.
  - cbn [Py.split_chars].
    rewrite close_word_rev by now apply spaceless_nonempty_chars.
    now rewrite string_of_list_ascii_of_string.
  - cbn in Hws3. apply andb_true_iff in Hws3 as [Hy Hws3].
    rewrite <- (app_nil_r ws3').
    rewrite (split_chars_end_of_word _ _ _ _ Hy Hws3).
    rewrite close_word_rev by now apply spaceless_nonempty_chars.
    now rewrite string_of_list_ascii_of_string.
Qed.

(** X1. A header made of an optional run of white space, a scheme that
    lowercases to [bearer], at least one white space character, a non-empty
    token without white space, and an optional run of white space yields
    that token. *)
Theorem extract_bearer_token_accepts (ws1 scheme ws2 token ws3 : string) :
  blank ws1 -> blank ws2 -> ws2 <> "" -> blank ws3 ->
  Py.lower scheme = "bearer" ->
  token <> "" -> spaceless token ->
  extract_bearer_token (Some (ws1 ++ scheme ++ ws2 ++ token ++ ws3)%string)
  = Some token.
Proof.
  intros Hws1 Hws2 Hne2 Hws3 Hlower Hnet Htoken.
  assert (scheme <> "") as Hnes by (intros ->; discriminate).
  assert (spaceless scheme) as Hscheme
    by (apply (lowered_spaceless _ _ Hlower); reflexivity).
  unfold extract_bearer_token.
  destruct (String.eqb_spec (ws1 ++ scheme ++ ws2 ++ token ++ ws3) "")
    as [Hempty | _].
  { apply (f_equal list_ascii_of_string) in Hempty.
    rewrite !chars_app in Hempty. cbn in Hempty.
    apply app_eq_nil in Hempty as [_ Hempty].
    apply app_eq_nil in Hempty as [Hempty _].
    now apply spaceless_nonempty_chars in Hnes. }
  rewrite split_two_fields by assumption.
  now rewrite Hlower.
Qed.

Lemma extract_bearer_token_accepts_witness :
  extract_bearer_token (Some " BEARER   abc-123 ") = Some "abc-123".
Proof.
  apply (extract_bearer_token_accepts " " "BEARER" "   " "abc-123" " ");
    first [reflexivity | discriminate].
Defined.

(** X2. A token that [extract_bearer_token] returns is non-empty, holds no
    white space and occurs in the header; the header then consists of
    exactly two fields, the first of which lowercases to [bearer]. *)
Theorem extract_bearer_token_sound (header : option string) (token : string) :
  extract_bearer_token header = Some token ->
  token <> ""
  /\ spaceless token
  /\ exists text scheme : string,
       header = Some text
       /\ Py.split text = [scheme; token]
       /\ Py.lower scheme = "bearer"
       /\ occurs_in token text.
Proof.
  unfold extract_bearer_token.
  destruct header as [text|]; [| discriminate].
  destruct (String.eqb text ""); [discriminate |].
  destruct (Py.split text) as [|scheme [|tok [|extra rest]]] eqn:Hsplit;
    try discriminate.
  destruct (String.eqb_spec (Py.lower scheme) "bearer") as [Hlower |];
    [| discriminate].
  intros [= <-].
  assert (In tok (Py.split_chars (list_ascii_of_string text) [])) as Hin.
  { unfold Py.split in Hsplit. rewrite Hsplit. right. now left. }
  destruct (split_chars_parts _ [] _ eq_refl Hin)
    as (Hne & Hsp & before & after & Heq).
  split; [exact Hne |]. split; [exact Hsp |].
  exists text, scheme. repeat split; try assumption.
  exists (string_of_list_ascii before), (string_of_list_ascii after).
  apply string_by_chars. rewrite !chars_app.
  now rewrite !list_ascii_of_string_of_list_ascii.
Qed.

Lemma extract_bearer_token_sound_witness :
  "abc-123" <> "" /\ spaceless "abc-123".
Proof.
  destruct (extract_bearer_token_sound (Some "Bearer abc-123") "abc-123"
              eq_refl) as (Hne & Hsp & _).
  split; assumption.
Defined.

End Bearer.

(* ===================================================================== *)
(** * [generate_token] and [validate_token_format]                        *)
(* ===================================================================== *)

Section TokenFormat.

Lemma hexlify_length (bs : list Z) :
  String.length (hexlify bs) = (2 * length bs)%nat.
Proof.
  unfold hexlify. rewrite string_of_list_ascii_length.
  now rewrite (length_flat_map_const _ 2) by reflexivity.
Qed.

Lemma hexlify_lower (bs : list Z) :
  forallb (fun b => (0 <=? b) && (b <? 256)) bs = true ->
  forallb is_lower_hex (list_ascii_of_string (hexlify bs)) = true.
Proof.
  intros Hbs. unfold hexlify. rewrite list_ascii_of_string_of_list_ascii.
  apply forallb_forall. intros c Hc.
  apply in_flat_map in Hc as (b & Hb & Hc).
  rewrite forallb_forall in Hbs. specialize (Hbs b Hb).
  apply andb_true_iff in Hbs as [Hlo Hhi].
  apply Z.leb_le in Hlo. apply Z.ltb_lt in Hhi.
  pose proof (hex_byte_lower b (conj Hlo Hhi)) as Hall.
  rewrite Forall_forall in Hall. now apply Hall, list_elem_of_In.
Qed.

Lemma digest_is_hexlify (s : string) :
  hash_sha512 s = hexlify (Sha512.digest (encode_utf8 s)).
Proof. reflexivity. Qed.

Lemma digest_bytes (msg : list Z) :
  forallb (fun b => (0 <=? b) && (b <? 256)) (Sha512.digest msg) = true.
Proof.
  apply forallb_forall. intros b Hb. apply digest_range in Hb.
  apply andb_true_iff. split; [apply Z.leb_le | apply Z.ltb_lt]; lia.
Qed.

(** What a lowercase hexadecimal digit is to [int]. *)
Lemma lower_hex_digit (c : ascii) :
  is_lower_hex c = true ->
  Py.is_digit 16 c = true
  /\ Py.int_space c = false
  /\ Ascii.eqb c "+" = false /\ Ascii.eqb c "-" = false
  /\ Ascii.eqb c "_" = false
  /\ Py.is_prefix_letter 16 c = false.
Proof.
  destruct c as [[] [] [] [] [] [] [] []]; vm_compute;
    first [discriminate | intros _; repeat split].
Qed.

Lemma digits_of_hex (s : list ascii) (acc : Z) (seen : bool) :
  forallb is_lower_hex s = true ->
  seen = true \/ s <> [] ->
  exists n, Py.digits 16 s acc seen false = Some (n, []).
Proof.
  revert acc seen. induction s as [|c s IH]; intros acc seen Hs Hseen.
  - destruct Hseen as [-> | Hne]; [| contradiction]. now exists acc.
  - cbn in Hs. apply andb_true_iff in Hs as [Hc Hs].
    destruct (lower_hex_digit c Hc) as (Hdigit & _ & _ & _ & Hunder & _).
    cbn [Py.digits]. rewrite Hunder.
    unfold Py.is_digit in Hdigit.
    destruct (Py.digit_value c) as [d|]; [| discriminate].
    rewrite Hdigit. apply IH; [exact Hs | now left].
Qed.

(** [int(s, 16)] succeeds on every non-empty string of lowercase
    hexadecimal digits. *)
Lemma int_of_hex (s : string) :
  s <> "" ->
  forallb is_lower_hex (list_ascii_of_string s) = true ->
  exists n, Py.int s 16 = Some n.
Proof.
  intros Hne Hs. unfold Py.int.
  destruct (list_ascii_of_string s) as [|c cs] eqn:Hchars.
  { destruct s; [contradiction | discriminate]. }
  pose proof Hs as Hall. cbn in Hs. apply andb_true_iff in Hs as [Hc Hcs].
  destruct (lower_hex_digit c Hc) as (_ & Hspace & Hplus & Hminus & _ & _).
  cbn [Py.lstrip]. rewrite Hspace. unfold Py.sign. rewrite Hplus, Hminus.
  assert (Py.skip_prefix 16 (c :: cs) = c :: cs) as ->.
  { unfold Py.skip_prefix. destruct cs as [|p cs']; [reflexivity |].
    cbn in Hcs. apply andb_true_iff in Hcs as [Hp _].
    destruct (lower_hex_digit p Hp) as (_ & _ & _ & _ & _ & Hletter).
    now rewrite Hletter, andb_false_r. }
  destruct (digits_of_hex (c :: cs) 0 false Hall) as (n & ->);
    [right; discriminate |].
  now exists (1 * n).
Qed.

Lemma hex_string_is_valid (s : string) :
  (16 <= String.length s <= 128)%nat ->
  forallb is_lower_hex (list_ascii_of_string s) = true ->
  validate_token_format s = true.
Proof.
  intros [Hlo Hhi] Hs. unfold validate_token_format.
  assert (s <> "") as Hne by (intros ->; cbn in Hlo; lia).
  destruct (String.eqb_spec s "") as [Hempty | _]; [contradiction |].
  rewrite (proj2 (Nat.ltb_ge _ _) Hlo), (proj2 (Nat.ltb_ge _ _) Hhi).
  cbn [orb]. now destruct (int_of_hex s Hne Hs) as (v & ->).
Qed.

(** X3. A token of [generate_token(length)] with [8 <= length <= 64], the
    default 32 among them, has [2 * length] characters, all lowercase
    hexadecimal digits, and passes [validate_token_format]. *)
Theorem generated_token_is_valid (urandom : Z -> list Z) (length : Z) :
  urandom_ok urandom ->
  8 <= length <= 64 ->
  exists token,
    generate_token urandom length = Return token
    /\ String.length token = Z.to_nat (2 * length)
    /\ forallb is_lower_hex (list_ascii_of_string token) = true
    /\ validate_token_format token = true.
Proof.
  intros Hrandom Hlength.
  destruct (Hrandom length ltac:(lia)) as [Hlen Hbytes].
  exists (hexlify (urandom length)).
  unfold generate_token, token_hex.
  rewrite (proj2 (Z.ltb_ge _ _)) by lia.
  assert (String.length (hexlify (urandom length)) = Z.to_nat (2 * length))
    as Hsize by (rewrite hexlify_length, Hlen; lia).
  split; [reflexivity |]. split; [exact Hsize |].
  split; [now apply hexlify_lower |].
  apply hex_string_is_valid; [rewrite Hsize; lia | now apply hexlify_lower].
Qed.

Lemma generated_token_is_valid_witness :
  exists token,
    generate_token (fun n => repeat 171 (Z.to_nat n)) 32 = Return token
    /\ String.length token = 64%nat
    /\ forallb is_lower_hex (list_ascii_of_string token) = true
    /\ validate_token_format token = true.
Proof.
  apply (generated_token_is_valid (fun n => repeat 171 (Z.to_nat n)) 32).
  - intros n Hn. split; [apply repeat_length |].
    apply forallb_forall. intros b Hb. apply repeat_spec in Hb. now subst b.
  - lia.
Defined.

(** X4. Every SHA-512 digest passes [validate_token_format]: 128 characters
    is the longest token it admits, so the check cannot tell a raw token
    from a stored digest. *)
Theorem digest_passes_validation (s : string) :
  validate_token_format (hash_sha512 s) = true.
Proof.
  rewrite digest_is_hexlify. apply hex_string_is_valid.
  - rewrite hexlify_length, length_digest. lia.
  - apply hexlify_lower, digest_bytes.
Qed.

Lemma lstrip_decompose (s : list ascii) :
  exists ws, s = ws ++ Py.lstrip s /\ forallb Py.int_space ws = true.
Proof.
  induction s as [|c s (ws & Heq & Hws)]; [now exists [] |].
  cbn [Py.lstrip]. destruct (Py.int_space c) eqn:Hc.
  - exists (c :: ws). cbn. rewrite Hc, Hws. now rewrite <- Heq.
  - now exists [].
Qed.

Lemma sign_decompose (s : list ascii) :
  exists pre, s = pre ++ snd (Py.sign s) /\ forallb token_char pre = true.
Proof.
  destruct s as [|c s]; [now exists [] |].
  unfold Py.sign.
  destruct (Ascii.eqb_spec c "+") as [-> | _]; [now exists ["+"%char] |].
  destruct (Ascii.eqb_spec c "-") as [-> | _]; [now exists ["-"%char] |].
  now exists [].
Qed.

Lemma prefix_letter_is_token_char (p : ascii) :
  Py.is_prefix_letter 16 p = true -> token_char p = true.
Proof.
  destruct p as [[] [] [] [] [] [] [] []]; vm_compute;
    first [discriminate | reflexivity].
Qed.

Lemma digit_is_token_char (c : ascii) :
  Py.is_digit 16 c = true -> token_char c = true.
Proof.
  destruct c as [[] [] [] [] [] [] [] []]; vm_compute;
    first [discriminate | reflexivity].
Qed.

Lemma space_is_token_char (c : ascii) :
  Py.int_space c = true -> token_char c = true.
Proof. intros Hc. unfold token_char. rewrite Hc. now rewrite !orb_true_r. Qed.

Lemma skip_prefix_decompose (s : list ascii) :
  exists pre, s = pre ++ Py.skip_prefix 16 s /\ forallb token_char pre = true.
Proof.
  destruct s as [|z [|p rest]]; try (now exists []).
  unfold Py.skip_prefix.
  destruct (Ascii.eqb_spec z "0") as [-> | _]; [| now exists []].
  destruct (Py.is_prefix_letter 16 p) eqn:Hp; [| now exists []].
  cbn [andb]. pose proof (prefix_letter_is_token_char p Hp) as Htok.
  destruct rest as [|u rest]; [exists ["0"%char; p]; cbn; now rewrite Htok |].
  destruct (Ascii.eqb_spec u "_") as [-> | _].
  - exists ["0"%char; p; "_"%char]. cbn. now rewrite Htok.
  - exists ["0"%char; p]. cbn. now rewrite Htok.
Qed.

Lemma digits_decompose (s : list ascii) (acc : Z) (seen underscore : bool)
    (n : Z) (rest : list ascii) :
  Py.digits 16 s acc seen underscore = Some (n, rest) ->
  exists literal, s = literal ++ rest /\ forallb token_char literal = true.
Proof.
  revert acc seen underscore.
  induction s as [|c s IH]; intros acc seen underscore Hdigits.
  - cbn in Hdigits. destruct (seen && negb underscore); [| discriminate].
    injection Hdigits as <- <-. now exists [].
  - cbn [Py.digits] in Hdigits.
    assert (forall v, (if seen && negb underscore
                       then Some (acc, c :: s) else None) = Some (v, rest) ->
                      exists literal,
                        c :: s = literal ++ rest
                        /\ forallb token_char literal = true) as Hstop.
    { intros v Hv. destruct (seen && negb underscore); [| discriminate].
      injection Hv as _ <-. now exists []. }
    destruct (Ascii.eqb_spec c "_") as [-> | _].
    + destruct (seen && negb underscore); [| discriminate].
      destruct (IH _ _ _ Hdigits) as (literal & -> & Hlit).
      exists ("_"%char :: literal). split; [reflexivity |].
      cbn [forallb]. now rewrite Hlit.
    + destruct (Py.digit_value c) as [d|] eqn:Hvalue; [| now apply Hstop in Hdigits].
      destruct (d <? 16) eqn:Hd; [| now apply Hstop in Hdigits].
      destruct (IH _ _ _ Hdigits) as (literal & -> & Hlit).
      exists (c :: literal). split; [reflexivity |].
      cbn [forallb]. rewrite Hlit, andb_true_r.
      apply digit_is_token_char. unfold Py.is_digit. now rewrite Hvalue.
Qed.

Lemma int_chars (s : string) (n : Z) :
  Py.int s 16 = Some n ->
  forallb token_char (list_ascii_of_string s) = true.
Proof.
  unfold Py.int.
  destruct (lstrip_decompose (list_ascii_of_string s)) as (ws & Hs & Hws).
  destruct (sign_decompose (Py.lstrip (list_ascii_of_string s)))
    as (sg & Hsign & Hsg).
  destruct (Py.sign (Py.lstrip (list_ascii_of_string s))) as [v body].
  cbn [snd] in Hsign.
  destruct (skip_prefix_decompose body) as (pre & Hbody & Hpre).
  destruct (Py.digits 16 (Py.skip_prefix 16 body) 0 false false)
    as [[m rest]|] eqn:Hdigits; [| discriminate].
  destruct (digits_decompose _ _ _ _ _ _ Hdigits) as (literal & Hlit & Hliteral).
  destruct (lstrip_decompose rest) as (tail & Hrest & Htail).
  destruct (Py.lstrip rest); [| discriminate]. intros _.
  rewrite Hs, Hsign, Hbody, Hlit, Hrest, app_nil_r.
  rewrite !forallb_app, Hsg, Hpre, Hliteral. cbn [andb].
  apply andb_true_iff. split; apply forallb_forall; intros c Hc;
    apply space_is_token_char;
    [rewrite forallb_forall in Hws; now apply Hws
    | rewrite forallb_forall in Htail; now apply Htail].
Qed.

Lemma removed_chars (old : ascii) (P : ascii -> bool) (s : string) :
  forallb P (list_ascii_of_string (Py.remove_char old s)) = true ->
  forallb (fun c => P c || Ascii.eqb c old) (list_ascii_of_string s) = true.
Proof.
  induction s as [|c s IH]; [reflexivity |].
  cbn [Py.remove_char]. destruct (Ascii.eqb c old) eqn:Hc.
  - intros Hs. cbn. rewrite Hc, orb_true_r. now apply IH.
  - cbn. intros Hs. apply andb_true_iff in Hs as [HP Hs].
    rewrite HP. now apply IH.
Qed.

(** X5. A token that passes [validate_token_format] has between 16 and 128
    characters, and each of them is alphanumeric, a dash, an underscore, a
    plus sign or white space: no other punctuation is ever accepted. *)
Theorem valid_token_shape (token : string) :
  validate_token_format token = true ->
  (16 <= String.length token <= 128)%nat
  /\ forallb token_char (list_ascii_of_string token) = true.
Proof.
  unfold validate_token_format.
  destruct (String.eqb token ""); [discriminate |].
  destruct (String.length token <? 16)%nat eqn:Hlo; [discriminate |].
  destruct (128 <? String.length token)%nat eqn:Hhi; [discriminate |].
  apply Nat.ltb_ge in Hlo, Hhi. cbn [orb]. intros Hvalid.
  split; [lia |].
  destruct (Py.int token 16) as [n|] eqn:Hint; [now apply (int_chars _ n) |].
  unfold Py.isalnum in Hvalid.
  assert (forallb Py.isalnum_char
            (list_ascii_of_string
               (Py.remove_char "_" (Py.remove_char "-" token))) = true)
    as Halnum.
  { destruct (list_ascii_of_string _); [discriminate | exact Hvalid]. }
  apply removed_chars, removed_chars in Halnum.
  rewrite forallb_forall in Halnum. apply forallb_forall. intros c Hc.
  specialize (Halnum c Hc). unfold token_char.
  apply orb_true_iff in Halnum as [Halnum | ->];
    [| now rewrite !orb_true_r].
  apply orb_true_iff in Halnum as [-> | ->]; [reflexivity |].
  now rewrite !orb_true_r.
Qed.

Lemma valid_token_shape_witness :
  (16 <= String.length "deadbeef-cafe_0123" <= 128)%nat
  /\ forallb token_char (list_ascii_of_string "deadbeef-cafe_0123") = true.
Proof. apply (valid_token_shape "deadbeef-cafe_0123"). reflexivity. Defined.

End TokenFormat.

(* ===================================================================== *)
(** * The token model of [examples/django_models.py]                      *)
(* ===================================================================== *)

Section TokenModel.

Lemma hash_token_length (raw : string) :
  String.length (ApplicationToken.hash_token raw) = 128%nat.
Proof.
  change (ApplicationToken.hash_token raw)
    with (hexlify (Sha512.digest (encode_utf8 raw))).
  now rewrite hexlify_length, length_digest.
Qed.

Lemma hash_token_nonempty (raw : string) :
  String.eqb (ApplicationToken.hash_token raw) "" = false.
Proof.
  destruct (String.eqb_spec (ApplicationToken.hash_token raw) "") as [Hempty |];
    [| reflexivity].
  pose proof (hash_token_length raw) as Hlen. rewrite Hempty in Hlen.
  discriminate.
Qed.

Lemma save_of_digest (r : ApplicationToken.t) :
  String.length (ApplicationToken.token_hash r) = 128%nat ->
  ApplicationToken.save r = r.
Proof.
  intros Hlen. unfold ApplicationToken.save.
  now rewrite Hlen, andb_false_r.
Qed.

(** X6. [save] is idempotent; it leaves a row with a non-empty token holding
    a token of 128 characters; and it stores a token that already has 128
    characters as it is, hashed or not. *)
Theorem save_normalizes (r : ApplicationToken.t) :
  ApplicationToken.save (ApplicationToken.save r) = ApplicationToken.save r
  /\ (ApplicationToken.token_hash r <> "" ->
      String.length (ApplicationToken.token_hash (ApplicationToken.save r))
      = 128%nat)
  /\ (String.length (ApplicationToken.token_hash r) = 128%nat ->
      ApplicationToken.save r = r).
Proof.
  split; [| split].
  - destruct (negb (ApplicationToken.token_hash r =? "")%string
              && negb (String.length (ApplicationToken.token_hash r) =? 128)%nat)
      eqn:Hraw.
    + apply save_of_digest. unfold ApplicationToken.save. rewrite Hraw.
      apply hash_token_length.
    + assert (ApplicationToken.save r = r) as Hsame
        by (unfold ApplicationToken.save; now rewrite Hraw).
      now rewrite !Hsame.
  - intros Hne. unfold ApplicationToken.save.
    destruct (String.eqb_spec (ApplicationToken.token_hash r) "")
      as [Hempty | _]; [contradiction |].
    destruct (Nat.eqb_spec (String.length (ApplicationToken.token_hash r)) 128)
      as [Hlen | _]; cbn [negb andb]; [exact Hlen |].
    apply hash_token_length.
  - apply save_of_digest.
Qed.

Lemma save_normalizes_witness :
  String.length
    (ApplicationToken.token_hash
       (ApplicationToken.save
          (ApplicationToken.Build alice "ci" "s3cret" "read" None 0 None true "")))
  = 128%nat.
Proof.
  apply (save_normalizes
           (ApplicationToken.Build alice "ci" "s3cret" "read" None 0 None true "")).
  discriminate.
Defined.

Lemma same_credentials_filter (h : string)
    (objects objects' : list ApplicationToken.t) :
  Forall2 same_credentials objects objects' ->
  Forall2 same_credentials
    (filter (fun r => ApplicationToken.token_hash r = h) objects)
    (filter (fun r => ApplicationToken.token_hash r = h) objects').
Proof.
  induction 1 as [|r r' objects objects' Hsame _ IH]; [constructor |].
  rewrite !filter_cons. pose proof Hsame as (_ & Hhash & _).
  rewrite <- Hhash.
  destruct (decide (ApplicationToken.token_hash r = h));
    [constructor; [exact Hsame | exact IH] | exact IH].
Qed.

(** X7. The loader reads the owner, the digest, the permission and the
    expiry of a row and nothing else: two tables whose rows agree on these
    give the same result and the same log, whatever their names,
    [created_at], [last_used], [is_active] and [allowed_ips] are. *)
Theorem load_reads_credentials_only (self : YartuMCPAuthProvider.t)
    (dj : bool) (objects objects' : list ApplicationToken.t) (now : Z)
    (raw : string) :
  Forall2 same_credentials objects objects' ->
  YartuMCPAuthProvider.load_access_token self dj objects now raw
  = YartuMCPAuthProvider.load_access_token self dj objects' now raw.
Proof.
  intros Hsame. destruct dj; [| reflexivity].
  unfold YartuMCPAuthProvider.load_access_token, ApplicationToken.get.
  cbn [negb].
  pose proof (same_credentials_filter (hash_sha512 raw) _ _ Hsame) as Hfilter.
  destruct Hfilter as [|r r' l l' (Huser & Hhash & Hperm & Hexp) Hrest];
    [reflexivity |].
  destruct Hrest as [|r2 r2' l l' _ _]; [| reflexivity].
  rewrite !bind_ret. now rewrite Huser, Hperm, Hexp.
Qed.

Lemma load_reads_credentials_only_witness :
  YartuMCPAuthProvider.load_access_token YartuMCPAuthProvider.default true
    [row alice None true] 1000 "s3cret"
  = YartuMCPAuthProvider.load_access_token YartuMCPAuthProvider.default true
      [row_in_use] 1000 "s3cret".
Proof.
  apply load_reads_credentials_only.
  repeat constructor.
Defined.

End TokenModel.

Section Issuance.

Variable self : YartuMCPAuthProvider.t.
Variable urandom : Z -> list Z.




End Issuance.


(* ===================================================================== *)
(** * Scopes: the token's predicates and who may call what                *)
(* ===================================================================== *)

Section Scopes.

(** X9. On a single scope [has_any_scope] and [has_all_scopes] both are
    [has_scope]; on a non-empty set holding all scopes implies holding one
    of them; on the empty set they part: no token holds any scope of it and
    every token holds all of them. *)
Theorem scope_predicates (token : ProxmoxMCPToken.t) (required : gset string)
    (scope : string) :
  ProxmoxMCPToken.has_any_scope token {[scope]}
  = ProxmoxMCPToken.has_scope token scope
  /\ ProxmoxMCPToken.has_all_scopes token {[scope]}
     = ProxmoxMCPToken.has_scope token scope
  /\ (required ≠ ∅ ->
      ProxmoxMCPToken.has_all_scopes token required = true ->
      ProxmoxMCPToken.has_any_scope token required = true)
  /\ ProxmoxMCPToken.has_any_scope token ∅ = false
  /\ ProxmoxMCPToken.has_all_scopes token ∅ = true.
Proof.
  unfold ProxmoxMCPToken.has_any_scope, ProxmoxMCPToken.has_all_scopes,
    ProxmoxMCPToken.has_scope.
  split; [| split; [| split; [| split]]].
  - apply bool_decide_ext. split.
    + intros Hne. apply set_choose_L in Hne as (x & Hx).
      apply elem_of_intersection in Hx as [Hx Heq].
      apply elem_of_singleton in Heq. now subst x.
    + intros Hin. apply (non_empty_inhabited_L scope).
      apply elem_of_intersection. split; [exact Hin |].
      now apply elem_of_singleton.
  - apply bool_decide_ext. split.
    + intros Hsub. apply Hsub. now apply elem_of_singleton.
    + intros Hin x Hx. apply elem_of_singleton in Hx. now subst x.
  - intros Hne Hall. apply bool_decide_eq_true in Hall.
    apply bool_decide_eq_true_2.
    apply set_choose_L in Hne as (x & Hx).
    apply (non_empty_inhabited_L x). apply elem_of_intersection.
    split; [now apply Hall | exact Hx].
  - apply bool_decide_eq_false_2. intros Hne. apply Hne.
    apply (right_absorb_L ∅ (∩)).
  - apply bool_decide_eq_true_2. intros x Hx.
    now apply not_elem_of_empty in Hx.
Qed.

Lemma scope_predicates_witness :
  ProxmoxMCPToken.has_any_scope user_token {["user"]} = true.
Proof.
  destruct (scope_predicates user_token {["user"]} "user")
    as (_ & _ & Hany & _).
  apply Hany.
  - apply non_empty_singleton_L.
  - vm_compute. reflexivity.
Defined.

(** A token the loader returns is the access context of a row that
    matches the digest. *)
Lemma load_some (self : YartuMCPAuthProvider.t) (dj : bool)
    (objects : list ApplicationToken.t) (now : Z) (raw : string)
    (tok : ProxmoxMCPToken.t) :
  result (YartuMCPAuthProvider.load_access_token self dj objects now raw)
  = Return (Some tok) ->
  exists r expires_at,
    r ∈ objects
    /\ ApplicationToken.token_hash r = hash_sha512 raw
    /\ tok = access_context self r (hash_sha512 raw) expires_at.
Proof.
  destruct dj; [| discriminate].
  destruct (get_cases objects (hash_sha512 raw))
    as [(r & Hget & Hin & Hhash) | [Hget | Hget]].
  - rewrite (load_found _ _ _ _ _ Hget). intros Hres. exists r.
    destruct (ApplicationToken.expires r) as [e|];
      [case_bool_decide; [discriminate |] |];
      injection Hres as <-; eexists; repeat split; assumption.
  - rewrite (load_not_found _ _ _ _ Hget). discriminate.
  - unfold YartuMCPAuthProvider.load_access_token. cbn [negb].
    rewrite Hget. discriminate.
Qed.

Lemma derive_scopes_cases (self : YartuMCPAuthProvider.t) (user : User.t) :
  YartuMCPAuthProvider.derive_scopes self user
  = if grants_admin user
    then {[YartuMCPAuthProvider.user_scope self;
           YartuMCPAuthProvider.admin_scope self;
           YartuMCPAuthProvider.write_scope self]}
    else if grants_write user
    then {[YartuMCPAuthProvider.user_scope self;
           YartuMCPAuthProvider.write_scope self]}
    else {[YartuMCPAuthProvider.user_scope self]}.
Proof.
  unfold YartuMCPAuthProvider.derive_scopes, grants_admin, grants_write.
  destruct (User.role user) as [role|].
  - destruct (UserRole.is_superuser role); [reflexivity |].
    cbn [orb]. now destruct (UserRole.can_write role).
  - destruct (User.is_superuser user); [| reflexivity].
    now rewrite (assoc_L (∪)).
Qed.

(** X10. The scope set of a token the loader returns is one of three: the
    baseline scope alone, the baseline and the write scope, or all three.
    The admin scope is never granted without the write scope, and the
    baseline scope is always there.  The same holds, under the fixed names,
    of a token built by [from_django_user]. *)
Theorem scope_sets_form_a_chain (self : YartuMCPAuthProvider.t) (dj : bool)
    (objects : list ApplicationToken.t) (now : Z) (raw : string)
    (tok : ProxmoxMCPToken.t) :
  result (YartuMCPAuthProvider.load_access_token self dj objects now raw)
  = Return (Some tok) ->
  (ProxmoxMCPToken.scopes tok = {[YartuMCPAuthProvider.user_scope self]}
   \/ ProxmoxMCPToken.scopes tok
      = {[YartuMCPAuthProvider.user_scope self;
          YartuMCPAuthProvider.write_scope self]}
   \/ ProxmoxMCPToken.scopes tok
      = {[YartuMCPAuthProvider.user_scope self;
          YartuMCPAuthProvider.admin_scope self;
          YartuMCPAuthProvider.write_scope self]})
  /\ forall user permission expires_days,
       let built :=
         ProxmoxMCPToken.scopes
           (ProxmoxMCPToken.from_django_user user permission expires_days now)
       in
       built = {["user"]} \/ built = {["user"; "write"]}
       \/ built = {["user"; "admin"; "write"]}.
Proof.
  intros Hload. split.
  - destruct (load_some _ _ _ _ _ _ Hload) as (r & e & _ & _ & ->).
    cbn [access_context ProxmoxMCPToken.scopes].
    rewrite derive_scopes_cases.
    destruct (grants_admin _); [auto |]. destruct (grants_write _); auto.
  - intros user permission expires_days. cbn zeta.
    rewrite from_django_user_scopes.
    rewrite <- (derive_scopes_spec YartuMCPAuthProvider.default).
    rewrite derive_scopes_cases.
    destruct (grants_admin _); [auto |]. destruct (grants_write _); auto.
Qed.

Lemma scope_sets_form_a_chain_witness :
  ProxmoxMCPToken.scopes
    (access_context YartuMCPAuthProvider.default (row bob None true)
       (hash_sha512 "s3cret") (timestamp 1000 + seconds 86400))
  = {["user"]}
  \/ ProxmoxMCPToken.scopes
       (access_context YartuMCPAuthProvider.default (row bob None true)
          (hash_sha512 "s3cret") (timestamp 1000 + seconds 86400))
     = {["user"; "write"]}
  \/ ProxmoxMCPToken.scopes
       (access_context YartuMCPAuthProvider.default (row bob None true)
          (hash_sha512 "s3cret") (timestamp 1000 + seconds 86400))
     = {["user"; "admin"; "write"]}.
Proof.
  apply (scope_sets_form_a_chain YartuMCPAuthProvider.default true
           [row bob None true] 1000 "s3cret"
           (access_context YartuMCPAuthProvider.default (row bob None true)
              (hash_sha512 "s3cret") (timestamp 1000 + seconds 86400))).
  rewrite (load_found YartuMCPAuthProvider.default _ 1000 _ _
             (row_found bob None true)).
  reflexivity.
Defined.

Lemma untagged_resolution (ctx : MiddlewareContext) :
  untagged ctx ->
  ScopeRBAC.resolve_required_scopes ScopeRBAC.default ctx
  = if bool_decide (message_name ctx ∈ admin_names) then {["admin"]}
    else if bool_decide (message_name ctx ∈ write_names) then {["write"]}
    else {["user"]}.
Proof.
  intros Hctx. unfold ScopeRBAC.resolve_required_scopes.
  assert (forall tags,
             tags = None \/ tags = Some [] ->
             ScopeRBAC._get_tool_required_scopes ScopeRBAC.default
               (message_name ctx) tags
             = if bool_decide (message_name ctx ∈ admin_names) then {["admin"]}
               else if bool_decide (message_name ctx ∈ write_names)
               then {["write"]}
               else {["user"]}) as Hresolve.
  { intros tags Htags. unfold ScopeRBAC._get_tool_required_scopes.
    change (ScopeRBAC.tool_scope_mapping ScopeRBAC.default)
      with ScopeRBAC._get_default_tool_scope_mapping.
    rewrite default_table_lookup.
    change (ScopeRBAC.default_scope ScopeRBAC.default) with "user".
    destruct Htags as [-> | ->]; repeat case_bool_decide; reflexivity. }
  destruct (get_tool ctx (message_name ctx)) as [tool|] eqn:Htool.
  - apply Hresolve. now apply Hctx.
  - apply Hresolve. now left.
Qed.

(** X11. Who may call what.  For a token that the default provider loads
    and a call of a tool without tags through the default [ScopeRBAC], the
    call is authorized exactly when: the tool is in the admin tier and the
    owner is granted admin; or it is in the write tier and the owner is
    granted write; or it is in neither tier.  The token's own
    [is_superuser] flag and the row's [permission] play no part. *)
Theorem who_may_call_what (dj : bool) (objects : list ApplicationToken.t)
    (now : Z) (raw : string) (tok : ProxmoxMCPToken.t)
    (ctx : MiddlewareContext) :
  result (YartuMCPAuthProvider.load_access_token YartuMCPAuthProvider.default
            dj objects now raw) = Return (Some tok) ->
  untagged ctx ->
  exists r,
    r ∈ objects
    /\ ApplicationToken.token_hash r = hash_sha512 raw
    /\ authorizes ScopeRBAC.default (MkEnv true (Some (ProxmoxToken tok))) ctx
       = if bool_decide (message_name ctx ∈ admin_names)
         then grants_admin (ApplicationToken.user r)
         else if bool_decide (message_name ctx ∈ write_names)
         then grants_write (ApplicationToken.user r)
         else true.
Proof.
  intros Hload Hctx.
  destruct (load_some _ _ _ _ _ _ Hload) as (r & e & Hin & Hhash & ->).
  exists r. split; [exact Hin |]. split; [exact Hhash |].
  unfold authorizes. cbn [get_access_token]. cbn zeta.
  rewrite (untagged_resolution _ Hctx).
  unfold ProxmoxMCPToken.has_any_scope.
  cbn [access_context ProxmoxMCPToken.scopes].
  rewrite derive_scopes_cases.
  assert (grants_admin (ApplicationToken.user r) = true ->
          grants_write (ApplicationToken.user r) = true) as Hchain.
  { unfold grants_admin, grants_write.
    destruct (User.role _); [intros -> |]; auto. }
  destruct (grants_admin (ApplicationToken.user r)) eqn:Hadmin.
  - rewrite (Hchain eq_refl).
    destruct (bool_decide (message_name ctx ∈ admin_names));
      [| destruct (bool_decide (message_name ctx ∈ write_names))];
      vm_compute; reflexivity.
  - destruct (grants_write (ApplicationToken.user r)) eqn:Hwrite;
      (destruct (bool_decide (message_name ctx ∈ admin_names));
       [| destruct (bool_decide (message_name ctx ∈ write_names))]);
      vm_compute; reflexivity.
Qed.

Lemma who_may_call_what_witness :
  exists r,
    r ∈ [row bob None true]
    /\ ApplicationToken.token_hash r = hash_sha512 "s3cret"
    /\ authorizes ScopeRBAC.default
         (MkEnv true
            (Some (ProxmoxToken
                     (access_context YartuMCPAuthProvider.default
                        (row bob None true) (hash_sha512 "s3cret")
                        (timestamp 1000 + seconds 86400)))))
         (request "start_vm")
       = if bool_decide (message_name (request "start_vm") ∈ admin_names)
         then grants_admin (ApplicationToken.user r)
         else if bool_decide (message_name (request "start_vm") ∈ write_names)
         then grants_write (ApplicationToken.user r)
         else true.
Proof.
  apply (who_may_call_what true [row bob None true] 1000 "s3cret").
  - rewrite (load_found YartuMCPAuthProvider.default _ 1000 _ _
               (row_found bob None true)).
    reflexivity.
  - intros tool Htool. discriminate.
Defined.

End Scopes.

(* ===================================================================== *)
(** * [SimpleTokenAuthProvider]                                           *)
(* ===================================================================== *)

Section SimpleProvider.



End SimpleProvider.

(* ===================================================================== *)
(** * The middleware: error behaviour and composition                     *)
(* ===================================================================== *)

Section MiddlewareBehaviour.

Variable self : ScopeRBAC.t.
Variable env : Env.
Variable ctx : MiddlewareContext.
Hypothesis Havail : FASTMCP_AVAILABLE env = true.



Lemma listed_monotone (token token' : ProxmoxMCPToken.t) (tool : Tool) :
  ProxmoxMCPToken.scopes token ⊆ ProxmoxMCPToken.scopes token' ->
  listed self token tool -> listed self token' tool.
Proof.
  unfold listed. cbn zeta. intros Hsub [Hempty | Hmeet]; [now left | right].
  apply set_choose_L in Hmeet as (x & Hx).
  apply elem_of_intersection in Hx as [Hheld Hreq].
  apply (non_empty_inhabited_L x), elem_of_intersection. auto.
Qed.

Lemma filter_sublist_mono {A : Type} (P Q : A -> Prop)
    `{!forall x, Decision (P x)} `{!forall x, Decision (Q x)} (l : list A) :
  (forall x, P x -> Q x) -> sublist (filter P l) (filter Q l).
Proof.
  intros HPQ. induction l as [|x l IH]; [constructor |].
  rewrite !filter_cons. destruct (decide (P x)) as [HP | HP].
  - rewrite decide_True by auto. now constructor.
  - destruct (decide (Q x)); [now constructor | exact IH].
Qed.

(** X14. What the list path shows is a sublist of what the registry
    offers, in the registry's order, and it grows with the caller's scopes:
    a caller whose scopes include another caller's is shown at least the
    tools the other is shown. *)
Theorem listing_is_monotone (call_next : CallNext (list Tool))
    (token token' : ProxmoxMCPToken.t) (l : list log_record)
    (tools : list Tool) :
  get_access_token env = Some (ProxmoxToken token) ->
  call_next ctx = (l, Return tools) ->
  ProxmoxMCPToken.scopes token ⊆ ProxmoxMCPToken.scopes token' ->
  exists shown shown',
    result (ScopeRBAC.on_list_tools self env ctx call_next) = Return shown
    /\ result (ScopeRBAC.on_list_tools self
                 (MkEnv true (Some (ProxmoxToken token'))) ctx call_next)
       = Return shown'
    /\ sublist shown shown'
    /\ sublist shown' tools.
Proof.
  intros Htoken Hnext Hsub.
  exists (filter (listed self token) tools),
         (filter (listed self token') tools).
  split; [now apply (on_list_tools_result self token env ctx call_next l) |].
  split; [now apply (on_list_tools_result self token' _ ctx call_next l) |].
  split; [| apply sublist_filter].
  apply filter_sublist_mono. intros tool. now apply listed_monotone.
Qed.

End MiddlewareBehaviour.


Lemma listing_is_monotone_witness :
  exists shown shown',
    result (ScopeRBAC.on_list_tools ScopeRBAC.default as_user
              (request "tools/list") (fun _ => mret catalogue))
    = Return shown
    /\ result (ScopeRBAC.on_list_tools ScopeRBAC.default
                 (MkEnv true
                    (Some (ProxmoxToken
                             (ProxmoxMCPToken.Build "proxmox-mcp" (Some 8)
                                (Some "bob") (Some "read") 86400001000
                                {["user"; "write"]} None false))))
                 (request "tools/list") (fun _ => mret catalogue))
       = Return shown'
    /\ sublist shown shown'
    /\ sublist shown' catalogue.
Proof.
  apply (listing_is_monotone ScopeRBAC.default as_user (request "tools/list")
           eq_refl (fun _ => mret catalogue) user_token _ [] catalogue).
  - reflexivity.
  - reflexivity.
  - apply (bool_decide_eq_true_1
             (ProxmoxMCPToken.scopes user_token
              ⊆ ({["user"; "write"]} : gset string))).
    vm_compute. reflexivity.
Defined.

Section InvokeBehaviour.

Variable self : ScopeRBAC.t.
Variable env : Env.
Variable ctx : MiddlewareContext.
Hypothesis Havail : FASTMCP_AVAILABLE env = true.



Lemma authorizes_iff_listed (token : ProxmoxMCPToken.t) (tool : Tool) :
  get_access_token env = Some (ProxmoxToken token) ->
  get_tool ctx (message_name ctx) = Some tool ->
  tool_name tool = message_name ctx ->
  authorizes self env ctx = true <-> listed self token tool.
Proof.
  intros Htoken Hfound Hname. unfold authorizes.
  rewrite Htoken. cbn zeta. unfold ScopeRBAC.resolve_required_scopes.
  cbn zeta. rewrite Hfound, <- Hname, negb_andb, negb_involutive.
  rewrite (listed_test self token tool). apply bool_decide_eq_true.
Qed.

(** X16. The list path and the invoke path agree on a tool the registry
    knows under the name of the request: the tool is among those shown to a
    caller exactly when a call of it by the same caller reaches the
    handler and returns the handler's value. *)
Theorem list_and_invoke_agree (token : ProxmoxMCPToken.t) (tool : Tool)
    (tools : list Tool) (v : ToolResult) :
  get_access_token env = Some (ProxmoxToken token) ->
  get_tool ctx (message_name ctx) = Some tool ->
  tool_name tool = message_name ctx ->
  tool ∈ tools ->
  exists shown,
    result (ScopeRBAC.on_list_tools self env ctx (fun _ => mret tools))
    = Return shown
    /\ (tool ∈ shown
        <-> result (ScopeRBAC.on_call_tool self env ctx (fun _ => mret v))
            = Return v).
Proof.
  intros Htoken Hfound Hname Hin.
  exists (filter (listed self token) tools). split.
  - now apply (on_list_tools_result self token env ctx _ []).
  - rewrite list_elem_of_filter,
      <- (authorizes_iff_listed token tool Htoken Hfound Hname).
    pose proof (Hgranted := on_call_tool_granted self env ctx
                  Havail (fun _ => mret v) token Htoken).
    split.
    + intros [Hauth _]. now rewrite (Hgranted Hauth).
    + intros Hres. split; [| exact Hin].
      destruct (authorizes self env ctx) eqn:Hauth; [reflexivity |].
      destruct (on_call_tool_refused self env ctx Havail (fun _ => mret v)
                  Hauth) as (text & Hraise).
      rewrite Hraise in Hres. discriminate.
Qed.

End InvokeBehaviour.


Lemma list_and_invoke_agree_witness :
  exists shown,
    result (ScopeRBAC.on_list_tools ScopeRBAC.default as_user
              (MkContext "delete_vm"
                 (fun name => Some (MkTool name None)))
              (fun _ => mret catalogue))
    = Return shown
    /\ (MkTool "delete_vm" None ∈ shown
        <-> result (ScopeRBAC.on_call_tool ScopeRBAC.default as_user
                      (MkContext "delete_vm"
                         (fun name => Some (MkTool name None)))
                      (fun _ => mret "deleted"))
            = Return "deleted").
Proof.
  apply (list_and_invoke_agree ScopeRBAC.default as_user
           (MkContext "delete_vm" (fun name => Some (MkTool name None)))
           eq_refl user_token (MkTool "delete_vm" None) catalogue "deleted").
  - reflexivity.
  - reflexivity.
  - reflexivity.
  - apply list_elem_of_In. right. left. reflexivity.
Defined.

Section AuditBehaviour.

Variable self : AuditMiddleware.t.
Variable env : Env.
Variable ctx : MiddlewareContext.
Variable handler : CallNext ToolResult.



End AuditBehaviour.


Section ServerAsBuilt.

Variable env : Env.
Variable ctx : MiddlewareContext.
Hypothesis Havail : FASTMCP_AVAILABLE env = true.
Hypothesis Hanonymous : get_access_token env = None.

(** X18. Whatever [use_django_auth] is passed to the constructor, the
    server it builds puts nothing in front of the handlers: a caller
    without any token reaches the handler and is shown every tool.  The
    chain [_setup_middleware] registers when the attribute is set would
    have refused the same call with "Authentication required" and shown no
    tool. *)
Theorem server_as_built_enforces_nothing (use_django_auth : bool)
    (handler : CallNext ToolResult) (tools : CallNext (list Tool)) :
  let server := ProxmoxMCPHTTPServer.__init__ use_django_auth in
  call_tool_chain env (ProxmoxMCPHTTPServer.middleware server) handler ctx
  = handler ctx
  /\ list_tools_chain env (ProxmoxMCPHTTPServer.middleware server) tools ctx
     = tools ctx
  /\ call_tool_chain env (ProxmoxMCPHTTPServer._setup_middleware true)
       handler ctx
     = raise (ToolError AuthenticationRequired)
  /\ result (list_tools_chain env
               (ProxmoxMCPHTTPServer._setup_middleware true) tools ctx)
     = Return [].
Proof.
  cbn zeta. split; [reflexivity |]. split; [reflexivity |]. split.
  - change (call_tool_chain env (ProxmoxMCPHTTPServer._setup_middleware true)
              handler ctx)
      with (ScopeRBAC.on_call_tool ScopeRBAC.default env ctx
              (fun ctx' =>
                 AuditMiddleware.on_call_tool
                   (AuditMiddleware.__init__ true false) env ctx' handler)).
    apply on_call_tool_unauthenticated; [exact Havail | now left].
  - change (list_tools_chain env (ProxmoxMCPHTTPServer._setup_middleware true)
              tools ctx)
      with (ScopeRBAC.on_list_tools ScopeRBAC.default env ctx tools).
    unfold ScopeRBAC.on_list_tools. rewrite Havail, Hanonymous. reflexivity.
Qed.

End ServerAsBuilt.

Lemma server_as_built_enforces_nothing_witness :
  call_tool_chain (MkEnv true None)
    (ProxmoxMCPHTTPServer.middleware (ProxmoxMCPHTTPServer.__init__ true))
    (fun _ => mret "deleted") (request "delete_vm")
  = mret "deleted".
Proof.
  destruct (server_as_built_enforces_nothing (MkEnv true None)
              (request "delete_vm") eq_refl eq_refl true
              (fun _ => mret "deleted") (fun _ => mret catalogue))
    as (Hcall & _).
  exact Hcall.
Defined.

Section Registry.

Lemma untagged_lookup (default_scope admin_scope write_scope name : string)
    (required : gset string) :
  ScopeRBAC._get_default_tool_scope_mapping !! name = Some required ->
  ScopeRBAC._get_tool_required_scopes
    (ScopeRBAC.__init__ None default_scope admin_scope write_scope)
    name (Some [])
  = required.
Proof.
  intros Hentry. unfold ScopeRBAC._get_tool_required_scopes.
  cbn [ScopeRBAC.__init__ ScopeRBAC.tool_scope_mapping].
  now rewrite Hentry.
Qed.

(** X19. Every tool [_setup_tools] registers has an entry of its own in
    the default table of [ScopeRBAC], and the table has no entry besides:
    with the default table the fallback to [default_scope] is never taken
    for a registered tool, so the scopes a registered tool requires do not
    depend on the scope names the middleware was constructed with. *)
Theorem registered_tools_have_table_entries
    (default_scope admin_scope write_scope : string) (tool : Tool) :
  tool ∈ ProxmoxMCPHTTPServer._setup_tools ->
  ScopeRBAC._get_default_tool_scope_mapping !! tool_name tool
  = Some (ScopeRBAC._get_tool_required_scopes
            (ScopeRBAC.__init__ None default_scope admin_scope write_scope)
            (tool_name tool) (tool_tags tool))
  /\ dom ScopeRBAC._get_default_tool_scope_mapping
     = list_to_set (map tool_name ProxmoxMCPHTTPServer._setup_tools).
Proof.
  intros Hin. split.
  - assert (forallb
              (fun t => bool_decide
                          (tool_tags t = Some []
                           /\ is_Some (ScopeRBAC._get_default_tool_scope_mapping
                                       !! tool_name t)))
              ProxmoxMCPHTTPServer._setup_tools = true) as Hall
      by (vm_compute; reflexivity).
    rewrite forallb_forall in Hall.
    apply list_elem_of_In, Hall, bool_decide_eq_true in Hin
      as (Htags & required & Hentry).
    rewrite Htags, Hentry. f_equal. symmetry. now apply untagged_lookup.
  - apply (bool_decide_eq_true_1
             (dom ScopeRBAC._get_default_tool_scope_mapping
              = list_to_set
                  (map tool_name ProxmoxMCPHTTPServer._setup_tools))).
    vm_compute. reflexivity.
Qed.

End Registry.

Lemma registered_tools_have_table_entries_witness :
  ScopeRBAC._get_default_tool_scope_mapping !! "health"
  = Some (ScopeRBAC._get_tool_required_scopes
            (ScopeRBAC.__init__ None "guest" "root" "operator")
            "health" (Some [])).
Proof.
  apply (registered_tools_have_table_entries "guest" "root" "operator"
           (MkTool "health" (Some []))).
  apply list_elem_of_In. vm_compute. do 16 right. left. reflexivity.
Defined.

(* ===================================================================== *)
(** * The loader: failures, the row behind a token, and expiry            *)
(* ===================================================================== *)

Section LoaderBehaviour.

Variable self : YartuMCPAuthProvider.t.
Variable objects : list ApplicationToken.t.
Variable now : Z.
Variable raw : string.

Lemma load_ambiguous :
  ApplicationToken.get objects (hash_sha512 raw)
  = raise MultipleObjectsReturned ->
  YartuMCPAuthProvider.load_access_token self true objects now raw
  = ([LogRecord ERROR (ErrorLoadingAccessToken MultipleObjectsReturned)],
     Return None).
Proof.
  intros Hget. unfold YartuMCPAuthProvider.load_access_token. cbn [negb].
  rewrite Hget. reflexivity.
Qed.


(** X21. A token is returned only for a digest that exactly one row of the
    table stores, and it carries that row's owner and permission and the
    digest itself.  A digest stored by two rows or more is refused like an
    unknown one, with an error record instead of the warning. *)
Theorem loaded_token_names_its_row (DJANGO_AVAILABLE : bool) :
  let stored :=
    filter (fun r => ApplicationToken.token_hash r = hash_sha512 raw)
           objects in
  let run :=
    YartuMCPAuthProvider.load_access_token self DJANGO_AVAILABLE objects
      now raw in
  (forall tok,
     result run = Return (Some tok) ->
     exists r,
       stored = [r]
       /\ ProxmoxMCPToken.user_id tok
          = Some (User.id (ApplicationToken.user r))
       /\ ProxmoxMCPToken.username tok
          = Some (User.username (ApplicationToken.user r))
       /\ ProxmoxMCPToken.permission tok
          = Some (ApplicationToken.permission r)
       /\ ProxmoxMCPToken.token_hash tok = Some (hash_sha512 raw))
  /\ (DJANGO_AVAILABLE = true ->
      (1 < length stored)%nat ->
      run = ([LogRecord ERROR
                (ErrorLoadingAccessToken MultipleObjectsReturned)],
             Return None)).
Proof.
  cbn zeta. split.
  - intros tok. destruct DJANGO_AVAILABLE; [| discriminate].
    unfold YartuMCPAuthProvider.load_access_token, ApplicationToken.get.
    cbn [negb].
    destruct (filter _ objects) as [|r [|r' l]]; [discriminate | | discriminate].
    rewrite bind_ret.
    destruct (ApplicationToken.expires r) as [e|];
      [case_bool_decide; [discriminate |] |];
      intros [= <-]; exists r; repeat (split; [reflexivity |]); reflexivity.
  - intros -> Hmany. apply load_ambiguous. unfold ApplicationToken.get.
    destruct (filter _ objects) as [|r [|r' l]];
      [cbn in Hmany; lia | cbn in Hmany; lia | reflexivity].
Qed.



End LoaderBehaviour.

Lemma loaded_token_names_its_row_witness :
  YartuMCPAuthProvider.load_access_token YartuMCPAuthProvider.default true
    [row alice None true; row bob None true] 1000 "s3cret"
  = ([LogRecord ERROR (ErrorLoadingAccessToken MultipleObjectsReturned)],
     Return None).
Proof.
  destruct (loaded_token_names_its_row YartuMCPAuthProvider.default
              [row alice None true; row bob None true] 1000 "s3cret" true)
    as [_ Hmany].
  apply Hmany; [reflexivity |].
  rewrite !filter_cons, !decide_True by reflexivity. cbn. lia.
Defined.



Section LoaderAndModel.

Variable default_scopes : option (gset string).
Variable objects : list ApplicationToken.t.
Variable now : Z.
Variable raw : string.


End LoaderAndModel.


(* ===================================================================== *)
(** * The table of tokens under [create_token] and [update_last_used]     *)
(* ===================================================================== *)

Section Table.

Variable urandom : Z -> list Z.

Lemma create_token_fresh (objects objects' : list ApplicationToken.t)
    (now created : Z) (user : User.t) (name permission : string)
    (expires_days : option Z) (token : ApplicationToken.t) (raw : string) :
  ApplicationToken.create_token urandom objects now created user name
    permission expires_days = Return (token, raw, objects') ->
  objects' = objects ++ [token]
  /\ ApplicationToken.token_hash token = hash_sha512 raw
  /\ Forall (fun r => ApplicationToken.token_hash r <> hash_sha512 raw)
            objects.
Proof.
  unfold ApplicationToken.create_token, token_hex. cbn [Z.ltb Z.compare].
  rewrite save_of_digest by apply hash_token_length.
  cbn [ApplicationToken.token_hash].
  destruct (existsb _ objects) eqn:Hfresh; [discriminate |].
  intros [= <- <- <-].
  split; [reflexivity |]. split; [reflexivity |].
  apply Forall_forall. intros r Hin Hsame.
  assert (existsb
            (fun r => String.eqb (ApplicationToken.token_hash r)
                        (ApplicationToken.hash_token (hexlify (urandom 32))))
            objects = true) as Hfound; [| congruence].
  apply existsb_exists. exists r.
  split; [now apply list_elem_of_In | now apply String.eqb_eq].
Qed.

(** X25. Issuing a token keeps the table sound: when [create_token]
    returns, the table it leaves stores no digest twice if the table before
    did not, and the loader answers every token with another digest as it
    did before. *)
Theorem issuing_keeps_the_table_sound
    (objects objects' : list ApplicationToken.t)
    (now created : Z) (user : User.t) (name permission : string)
    (expires_days : option Z) (token : ApplicationToken.t) (raw : string) :
  ApplicationToken.create_token urandom objects now created user name
    permission expires_days = Return (token, raw, objects') ->
  (unique_digests objects -> unique_digests objects')
  /\ forall self dj later other,
       hash_sha512 other <> hash_sha512 raw ->
       YartuMCPAuthProvider.load_access_token self dj objects' later other
       = YartuMCPAuthProvider.load_access_token self dj objects later other.
Proof.
  intros Hcreate.
  destruct (create_token_fresh _ _ _ _ _ _ _ _ _ _ Hcreate)
    as (-> & Hhash & Hfresh).
  split.
  - unfold unique_digests. intros Hunique.
    rewrite map_app. apply NoDup_app. split; [exact Hunique |].
    split; [| apply NoDup_singleton].
    intros h Hstored Hnew. cbn [map] in Hnew.
    apply list_elem_of_singleton in Hnew as ->.
    apply list_elem_of_In, in_map_iff in Hstored as (r & Hsame & Hin).
    rewrite Forall_forall in Hfresh.
    apply list_elem_of_In in Hin.
    apply (Hfresh r Hin). now rewrite Hsame.
  - intros self dj later other Hother.
    unfold YartuMCPAuthProvider.load_access_token, ApplicationToken.get.
    rewrite filter_app, filter_cons, decide_False by (rewrite Hhash; congruence).
    now rewrite filter_nil, app_nil_r.
Qed.

Lemma same_credentials_refl (objects : list ApplicationToken.t) :
  Forall2 same_credentials objects objects.
Proof.
  apply Forall_Forall2_diag, Forall_forall. intros r _.
  unfold same_credentials. auto.
Qed.

(** X26. Recording the use of a token does not change what the token
    gives access to: after [update_last_used] on a stored row, whose token
    has the 128 characters of a digest, the row holds the new instant in
    [last_used] and the loader answers every token as before. *)
Theorem update_last_used_keeps_tokens (self : YartuMCPAuthProvider.t)
    (dj : bool) (objects : list ApplicationToken.t) (i : nat)
    (r : ApplicationToken.t) (used later : Z) (raw : string) :
  objects !! i = Some r ->
  String.length (ApplicationToken.token_hash r) = 128%nat ->
  ApplicationToken.last_used (ApplicationToken.update_last_used r used)
  = Some used
  /\ YartuMCPAuthProvider.load_access_token self dj
       (<[i := ApplicationToken.update_last_used r used]> objects) later raw
     = YartuMCPAuthProvider.load_access_token self dj objects later raw.
Proof.
  intros Hrow Hlen.
  assert (ApplicationToken.update_last_used r used
          = ApplicationToken.Build
              (ApplicationToken.user r) (ApplicationToken.name r)
              (ApplicationToken.token_hash r) (ApplicationToken.permission r)
              (ApplicationToken.expires r) (ApplicationToken.created_at r)
              (Some used) (ApplicationToken.is_active r)
              (ApplicationToken.allowed_ips r)) as ->.
  { unfold ApplicationToken.update_last_used. cbn zeta.
    apply save_of_digest. exact Hlen. }
  split; [reflexivity |].
  destruct dj; [| reflexivity].
  assert (Forall2 same_credentials
            (<[i := ApplicationToken.Build
                      (ApplicationToken.user r) (ApplicationToken.name r)
                      (ApplicationToken.token_hash r)
                      (ApplicationToken.permission r)
                      (ApplicationToken.expires r)
                      (ApplicationToken.created_at r)
                      (Some used) (ApplicationToken.is_active r)
                      (ApplicationToken.allowed_ips r)]> objects)
            objects) as Hsame.
  { rewrite <- (list_insert_id objects i r Hrow) at 2.
    apply Forall2_insert; [apply same_credentials_refl |].
    unfold same_credentials. auto. }
  unfold YartuMCPAuthProvider.load_access_token, ApplicationToken.get.
  cbn [negb].
  pose proof (same_credentials_filter (hash_sha512 raw) _ _ Hsame) as Hfilter.
  destruct Hfilter as [|r1 r1' l l' (Huser & _ & Hperm & Hexp) Hrest];
    [reflexivity |].
  destruct Hrest as [|r2 r2' l l' _ _]; [| reflexivity].
  rewrite !bind_ret. now rewrite Huser, Hperm, Hexp.
Qed.

End Table.

Lemma update_last_used_keeps_tokens_witness :
  YartuMCPAuthProvider.load_access_token YartuMCPAuthProvider.default true
    (<[0%nat := ApplicationToken.update_last_used (row alice None true) 900]>
       [row alice None true]) 1000 "s3cret"
  = YartuMCPAuthProvider.load_access_token YartuMCPAuthProvider.default true
      [row alice None true] 1000 "s3cret".
Proof.
  apply (update_last_used_keeps_tokens YartuMCPAuthProvider.default true
           [row alice None true] 0 (row alice None true) 900 1000 "s3cret").
  - reflexivity.
  - apply (hash_token_length "s3cret").
Defined.

Lemma issuing_keeps_the_table_sound_witness :
  unique_digests
    ([] ++ [ApplicationToken.Build bob "ci"
              (hash_sha512 (hexlify (constant_bytes 32))) "write"
              None 6 None true ""]).
Proof.
  assert (ApplicationToken.create_token constant_bytes [] 5 6 bob "ci" "write"
            None
          = Return (ApplicationToken.Build bob "ci"
                      (hash_sha512 (hexlify (constant_bytes 32))) "write"
                      None 6 None true "",
                    hexlify (constant_bytes 32),
                    [] ++ [ApplicationToken.Build bob "ci"
                             (hash_sha512 (hexlify (constant_bytes 32)))
                             "write" None 6 None true ""]))
    as Hcreate by (vm_compute; reflexivity).
  destruct (issuing_keeps_the_table_sound constant_bytes
              _ _ _ _ _ _ _ _ _ _ Hcreate) as [Hunique _].
  apply Hunique. apply NoDup_nil. exact I.
Defined.
